(** * HR interview analyzer: prompt construction and output parsing

    A shallow embedding of [core/analyzer.py] and [api/main.py].

    The program is a thin pipeline over Python's built-ins, pydantic
    (version 1) and LangChain.  What it uses of them is modelled first, from
    their definitions: [str.format], [repr] and [json.dumps]; the schema
    and the validation of a pydantic model; the prompt template and the
    pydantic output parser of LangChain.  The two source files follow, then
    the properties.

    Python [str] values are sequences of code points; here they are Rocq
    strings, whose characters stand for the code points below 256.
    Exceptions are values: a call that can raise returns a sum whose left
    side is the exception raised, and an [except] clause tests the class of
    the exception.  The two collaborators the program cannot compute by
    itself, [json.loads] and the model backend, are the variables of the
    section [Program]. *)

From Stdlib Require Import String Ascii List ZArith Bool Permutation Lia.
From Stdlib Require Import DecimalString Floats.
Import ListNotations.

Set Warnings "-register-all,-inexact-float".

Open Scope list_scope.
Open Scope string_scope.

(** ** Python strings *)

Module PyStr.

Definition nl : string := String "010"%char "".
Definition dq : string := String "034"%char "".

(** [c in s] for a single character. *)
Fixpoint has_char (c : ascii) (s : string) : bool :=
  match s with
  | "" => false
  | String d r => Ascii.eqb c d || has_char c r
  end.

(** [s.startswith(p)]. *)
Fixpoint startswith (p s : string) : bool :=
  match p, s with
  | "", _ => true
  | String _ _, "" => false
  | String a p', String b s' => Ascii.eqb a b && startswith p' s'
  end.

(** [p in s]. *)
Fixpoint contains (p s : string) : bool :=
  startswith p s ||
  match s with
  | "" => false
  | String _ r => contains p r
  end.

(** [s.find(p)], as an option instead of -1. *)
Fixpoint find (p s : string) : option nat :=
  if startswith p s then Some 0
  else match s with
       | "" => None
       | String _ r => option_map S (find p r)
       end.

(** Concatenation of the images of the characters of [s]. *)
Fixpoint flat_map_chars (f : ascii -> string) (s : string) : string :=
  match s with
  | "" => ""
  | String c r => f c ++ flat_map_chars f r
  end.

Definition hex_digit (n : nat) : ascii :=
  nth n (list_ascii_of_string "0123456789abcdef") "0"%char.

(** [str.isprintable] on one code point below 256: the ASCII range from the
    space to the tilde, and the Latin-1 range from U+00A1 except the soft
    hyphen U+00AD. *)
Definition isprintable (c : ascii) : bool :=
  let n := nat_of_ascii c in
  ((32 <=? n) && (n <? 127) || (161 <=? n) && negb (n =? 173))%nat.

(** One character of [repr(s)] between the quotes [quote]. *)
Definition repr_char (quote c : ascii) : string :=
  if Ascii.eqb c quote || Ascii.eqb c "\"%char then String "\"%char (String c "")
  else if Ascii.eqb c "009"%char then "\t"
  else if Ascii.eqb c "010"%char then "\n"
  else if Ascii.eqb c "013"%char then "\r"
  else if isprintable c then String c ""
  else let n := nat_of_ascii c in
       String "\"%char (String "x"%char
         (String (hex_digit (n / 16)) (String (hex_digit (n mod 16)) ""))).

(** [repr] quotes with an apostrophe unless the string has an apostrophe and
    no double quote. *)
Definition repr_quote (s : string) : ascii :=
  if has_char "'"%char s && negb (has_char "034"%char s)
  then "034"%char else "'"%char.

(** [repr(s)] for a [str]. *)
Definition repr_str (s : string) : string :=
  let q := repr_quote s in
  String q (flat_map_chars (repr_char q) s ++ String q "").

(** [str.isspace] on one code point below 256. *)
Definition isspace (c : ascii) : bool :=
  let n := nat_of_ascii c in
  ((9 <=? n) && (n <=? 13) || (28 <=? n) && (n <=? 32)
   || (n =? 133) || (n =? 160))%nat.

Fixpoint lstrip (s : string) : string :=
  match s with
  | "" => ""
  | String c r => if isspace c then lstrip r else s
  end.

Fixpoint rstrip (s : string) : string :=
  match s with
  | "" => ""
  | String c r =>
      match rstrip r with
      | "" => if isspace c then "" else String c ""
      | r' => String c r'
      end
  end.

(** [s.strip()]. *)
Definition strip (s : string) : string := rstrip (lstrip s).

Definition tilde_to_quote (c : ascii) : string :=
  if Ascii.eqb c "~"%char then dq else String c "".

(** Texts with double quotes are written with a tilde for each of them:
    [tildes s] is [s] with every tilde replaced by a double quote. *)
Definition tildes (s : string) : string := flat_map_chars tilde_to_quote s.

(** [str(n)] for a natural number. *)
Definition of_nat (n : nat) : string :=
  DecimalString.NilEmpty.string_of_uint (Nat.to_uint n).

End PyStr.

(** ** Python values that reach [str.format] *)

Inductive PyVal : Type :=
| PStr (s : string)
| PList (items : list PyVal)
| PDict (items : list (PyVal * PyVal)).

(** [repr(v)]: a list between brackets, a dict between braces in insertion
    order, items separated by a comma and a space. *)
Fixpoint py_repr (v : PyVal) : string :=
  match v with
  | PStr s => PyStr.repr_str s
  | PList items => "[" ++ String.concat ", " (map py_repr items) ++ "]"
  | PDict items =>
      "{" ++ String.concat ", "
               (map (fun kv => match kv with
                               | (k, x) => py_repr k ++ ": " ++ py_repr x
                               end) items) ++ "}"
  end.

(** [str(v)], which is also [format(v, "")]: a [str] is itself, a list or a
    dict is its [repr]. *)
Definition py_str (v : PyVal) : string :=
  match v with
  | PStr s => s
  | _ => py_repr v
  end.

(** ** Exceptions *)

Record PyException : Type := mkException {
  exc_class : string;
  exc_str : string;                   (* str(e) *)
  exc_llm_output : option string      (* the llm_output attribute, when the class has one *)
}.

Definition ValueError (msg : string) : PyException :=
  mkException "ValueError" msg None.

(** [str(KeyError(k))] is [repr(k)]. *)
Definition KeyError (key : string) : PyException :=
  mkException "KeyError" (PyStr.repr_str key) None.

Definition TypeError (msg : string) : PyException :=
  mkException "TypeError" msg None.

(** [json.JSONDecodeError], given by its message with the position. *)
Definition JSONDecodeError (msg : string) : PyException :=
  mkException "JSONDecodeError" msg None.

(** [isinstance(e, cls)] for the classes below, which have no subclass in
    this program. *)
Definition is_instance (e : PyException) (cls : string) : bool :=
  String.eqb (exc_class e) cls.

(** ** [str.format] with keyword arguments *)

Module Formatter.

Inductive segment : Type :=
| Literal (s : string)
| Field (name : string).

(** The state of the scan: in literal text, or inside a replacement field
    whose name so far is [name]. *)
Inductive mode : Type :=
| InText
| InField (name : string).

Definition field_syntax (c : ascii) : bool :=
  PyStr.has_char c "{!:.[]".

(** Splits a format string into literal text and replacement fields: a
    doubled brace is a literal brace, [{name}] is a field.  There is no
    result for a format string Python refuses (a lone closing brace, an
    unclosed field) and for a field with a conversion, a format
    specification, an attribute or an index, which is not modelled; the two
    format strings of this program are of neither kind. *)
Fixpoint parse (m : mode) (s : string) : option (list segment) :=
  match m, s with
  | InText, "" => Some []
  | InText, String "{" (String "{" r) =>
      option_map (cons (Literal "{")) (parse InText r)
  | InText, String "}" (String "}" r) =>
      option_map (cons (Literal "}")) (parse InText r)
  | InText, String "}" _ => None
  | InText, String "{" r => parse (InField "") r
  | InText, String c r =>
      option_map (cons (Literal (String c ""))) (parse InText r)
  | InField _, "" => None
  | InField name, String "}" r =>
      option_map (cons (Field name)) (parse InText r)
  | InField name, String c r =>
      if field_syntax c then None
      else parse (InField (name ++ String c "")) r
  end.

(** [kwargs[name]]: keyword arguments are looked up by name. *)
Fixpoint lookup (name : string) (kwargs : list (string * PyVal)) : option PyVal :=
  match kwargs with
  | [] => None
  | (k, v) :: rest => if String.eqb k name then Some v else lookup name rest
  end.

Fixpoint render (segs : list segment) (kwargs : list (string * PyVal))
  : PyException + string :=
  match segs with
  | [] => inr ""
  | Literal s :: rest =>
      match render rest kwargs with
      | inr out => inr (s ++ out)
      | inl e => inl e
      end
  | Field name :: rest =>
      match lookup name kwargs with
      | None => inl (KeyError name)
      | Some v =>
          match render rest kwargs with
          | inr out => inr (py_str v ++ out)
          | inl e => inl e
          end
      end
  end.

(** [template.format(...)] with the keyword arguments [kwargs]: each field
    is replaced by [format(value, "")] of its argument, which is not read as
    a format string again; a field without an argument raises [KeyError].
    A format string without a parse raises [ValueError]. *)
Definition format (template : string) (kwargs : list (string * PyVal))
  : PyException + string :=
  match parse InText template with
  | None => inl (ValueError "invalid format string")
  | Some segs => render segs kwargs
  end.

End Formatter.

(** ** JSON values and [json.dumps] *)

(** A JSON document as Python holds it after [json.loads]: an object keeps
    its members in document order (a later member with the same key replaces
    an earlier one on lookup), a number is kept as the text Python prints
    for it. *)
Inductive json : Type :=
| JNull
| JBool (b : bool)
| JNumber (text : string)
| JString (s : string)
| JArray (items : list json)
| JObject (members : list (string * json)).

Module Json.

(** [d.get(key)] on the dict built from [members]: the last member with
    that key. *)
Fixpoint get (key : string) (members : list (string * json)) : option json :=
  match members with
  | [] => None
  | (k, v) :: rest =>
      match get key rest with
      | Some later => Some later
      | None => if String.eqb k key then Some v else None
      end
  end.

Definition hex4 (n : nat) : string :=
  String (PyStr.hex_digit (n / 4096))
    (String (PyStr.hex_digit ((n / 256) mod 16))
       (String (PyStr.hex_digit ((n / 16) mod 16))
          (String (PyStr.hex_digit (n mod 16)) ""))).

(** One character of a string written by [json.dumps] (with its default
    [ensure_ascii]): the quote, the backslash and everything outside the
    range from the space to the tilde are escaped. *)
Definition escape_char (c : ascii) : string :=
  let n := nat_of_ascii c in
  if Ascii.eqb c "034"%char then String "\"%char PyStr.dq
  else if Ascii.eqb c "\"%char then "\\"
  else if Ascii.eqb c "010"%char then "\n"
  else if Ascii.eqb c "013"%char then "\r"
  else if Ascii.eqb c "009"%char then "\t"
  else if Ascii.eqb c "008"%char then "\b"
  else if Ascii.eqb c "012"%char then "\f"
  else if ((32 <=? n) && (n <? 127))%nat then String c ""
  else "\u" ++ hex4 n.

Definition dumps_str (s : string) : string :=
  PyStr.dq ++ PyStr.flat_map_chars escape_char s ++ PyStr.dq.

(** [json.dumps(v)] with the default separators. *)
Fixpoint dumps (v : json) : string :=
  match v with
  | JNull => "null"
  | JBool true => "true"
  | JBool false => "false"
  | JNumber text => text
  | JString s => dumps_str s
  | JArray items => "[" ++ String.concat ", " (map dumps items) ++ "]"
  | JObject members =>
      "{" ++ String.concat ", "
               (map (fun kv => match kv with
                               | (k, x) => dumps_str k ++ ": " ++ dumps x
                               end) members) ++ "}"
  end.

(** [del d[key]] when the key is present. *)
Definition remove (key : string) (members : list (string * json))
  : list (string * json) :=
  filter (fun kv => negb (String.eqb (fst kv) key)) members.

End Json.

(** ** A decoder for JSON text

    The properties of the program are stated for any [json.loads]; this
    decoder runs the program on concrete completions.  It reads objects,
    arrays, strings with their escapes, integers and the three literals as
    [json.loads] does.  It is not [json.loads] outside of this: it refuses a
    number with a fraction or an exponent, [NaN], the infinities and an
    escape above U+00FF, which need Python's floats and wider characters;
    it reads integers of any length and values nested to any depth, where
    [json.loads] ends with [ValueError] or [RecursionError]; and the message
    of its error has the position Python gives only for the empty text. *)

Module JsonText.

Definition is_ws (c : ascii) : bool := PyStr.has_char c (String " " (String "009" (String "010" (String "013" "")))).

Fixpoint skip_ws (s : string) : string :=
  match s with
  | "" => ""
  | String c r => if is_ws c then skip_ws r else s
  end.

Definition hex_value (c : ascii) : option nat :=
  let n := nat_of_ascii c in
  if ((48 <=? n) && (n <=? 57))%nat then Some (n - 48)
  else if ((97 <=? n) && (n <=? 102))%nat then Some (n - 87)
  else if ((65 <=? n) && (n <=? 70))%nat then Some (n - 55)
  else None.

Definition unicode_escape (h1 h2 h3 h4 : ascii) : option ascii :=
  match hex_value h1, hex_value h2, hex_value h3, hex_value h4 with
  | Some 0, Some 0, Some c, Some d => Some (ascii_of_nat (16 * c + d))
  | _, _, _, _ => None
  end.

Definition simple_escape (e : ascii) : option ascii :=
  if Ascii.eqb e "034" then Some "034"%char
  else if Ascii.eqb e "\" then Some "\"%char
  else if Ascii.eqb e "/" then Some "/"%char
  else if Ascii.eqb e "b" then Some "008"%char
  else if Ascii.eqb e "f" then Some "012"%char
  else if Ascii.eqb e "n" then Some "010"%char
  else if Ascii.eqb e "r" then Some "013"%char
  else if Ascii.eqb e "t" then Some "009"%char
  else None.

Definition push (c : option ascii) (r : option (string * string))
  : option (string * string) :=
  match c, r with
  | Some c, Some (s, rest) => Some (String c s, rest)
  | _, _ => None
  end.

(** The content of a string after its opening quote, and the text after
    its closing quote. *)
Fixpoint string_body (s : string) : option (string * string) :=
  match s with
  | "" => None
  | String "034" r => Some ("", r)
  | String "\" (String "u" (String h1 (String h2 (String h3 (String h4 r))))) =>
      push (unicode_escape h1 h2 h3 h4) (string_body r)
  | String "\" (String e r) => push (simple_escape e) (string_body r)
  | String "\" "" => None
  | String c r => push (Some c) (string_body r)
  end.

Definition is_digit (c : ascii) : bool :=
  let n := nat_of_ascii c in ((48 <=? n) && (n <=? 57))%nat.

Fixpoint digits (s : string) : string * string :=
  match s with
  | String c r =>
      if is_digit c then let (d, rest) := digits r in (String c d, rest)
      else ("", s)
  | "" => ("", "")
  end.

Definition float_mark (rest : string) : bool :=
  match rest with
  | String c _ => PyStr.has_char c ".eE"
  | "" => false
  end.

(** An integer, as Python prints it. *)
Definition integer (s : string) : option (json * string) :=
  let (negative, body) :=
    match s with
    | String "-" r => (true, r)
    | _ => (false, s)
    end in
  match digits body with
  | ("", _) => None
  | (String "0" (String _ _), _) => None
  | (d, rest) =>
      if float_mark rest then None
      else Some (JNumber (if negative && negb (String.eqb d "0")
                          then String "-" d else d), rest)
  end.

Definition literal (s : string) : option (json * string) :=
  if PyStr.startswith "true" s then Some (JBool true, substring 4 (String.length s - 4) s)
  else if PyStr.startswith "false" s then Some (JBool false, substring 5 (String.length s - 5) s)
  else if PyStr.startswith "null" s then Some (JNull, substring 4 (String.length s - 4) s)
  else integer s.

(** One value, then the rest of the text.  [members] and [elements] read
    what follows the opening brace or bracket; [fuel] bounds the nesting of
    the calls. *)
Fixpoint value (fuel : nat) (s : string) : option (json * string) :=
  match fuel with
  | O => None
  | S fuel' =>
      match skip_ws s with
      | String "{" r =>
          match skip_ws r with
          | String "}" rest => Some (JObject [], rest)
          | r' =>
              match members fuel' r' with
              | Some (ms, rest) => Some (JObject ms, rest)
              | None => None
              end
          end
      | String "[" r =>
          match skip_ws r with
          | String "]" rest => Some (JArray [], rest)
          | r' =>
              match elements fuel' r' with
              | Some (vs, rest) => Some (JArray vs, rest)
              | None => None
              end
          end
      | String "034" r =>
          match string_body r with
          | Some (str, rest) => Some (JString str, rest)
          | None => None
          end
      | other => literal other
      end
  end
with members (fuel : nat) (s : string) : option (list (string * json) * string) :=
  match fuel with
  | O => None
  | S fuel' =>
      match skip_ws s with
      | String "034" r =>
          match string_body r with
          | Some (key, after_key) =>
              match skip_ws after_key with
              | String ":" after_colon =>
                  match value fuel' after_colon with
                  | Some (v, after_value) =>
                      match skip_ws after_value with
                      | String "}" rest => Some ([(key, v)], rest)
                      | String "," more =>
                          match members fuel' more with
                          | Some (ms, rest) => Some ((key, v) :: ms, rest)
                          | None => None
                          end
                      | _ => None
                      end
                  | None => None
                  end
              | _ => None
              end
          | None => None
          end
      | _ => None
      end
  end
with elements (fuel : nat) (s : string) : option (list json * string) :=
  match fuel with
  | O => None
  | S fuel' =>
      match value fuel' s with
      | Some (v, after_value) =>
          match skip_ws after_value with
          | String "]" rest => Some ([v], rest)
          | String "," more =>
              match elements fuel' more with
              | Some (vs, rest) => Some (v :: vs, rest)
              | None => None
              end
          | _ => None
          end
      | None => None
      end
  end.

(** The object a text holds, when the text is an object and nothing else. *)
Definition object (s : string) : option (list (string * json)) :=
  match value (S (String.length s)) s with
  | Some (JObject ms, rest) =>
      match skip_ws rest with
      | "" => Some ms
      | _ => None
      end
  | _ => None
  end.

(** [json.loads] on text that is empty or starts with an opening brace: the
    members of the object, or a [JSONDecodeError]. *)
Definition loads (s : string) : PyException + list (string * json) :=
  match object s with
  | Some ms => inr ms
  | None =>
      inl (JSONDecodeError
             (if String.eqb s "" then "Expecting value: line 1 column 1 (char 0)"
              else "Expecting value"))
  end.

End JsonText.

(** ** Pydantic models whose fields are all required [str] fields *)

Module Pydantic.

Record ModelField : Type := mkField {
  field_name : string;
  field_description : string
}.

Record ModelClass : Type := mkModel {
  class_name : string;
  class_doc : string;             (* the docstring as inspect.getdoc returns it *)
  class_fields : list ModelField  (* in declaration order *)
}.

Definition is_lower (c : ascii) : bool :=
  let n := nat_of_ascii c in ((97 <=? n) && (n <=? 122))%nat.
Definition is_upper (c : ascii) : bool :=
  let n := nat_of_ascii c in ((65 <=? n) && (n <=? 90))%nat.
Definition upper (c : ascii) : ascii :=
  if is_lower c then ascii_of_nat (nat_of_ascii c - 32) else c.
Definition lower (c : ascii) : ascii :=
  if is_upper c then ascii_of_nat (nat_of_ascii c + 32) else c.

(** [s.title()] for an ASCII identifier: a letter that follows a letter is
    lowered, any other letter is raised. *)
Fixpoint title_from (after_letter : bool) (s : string) : string :=
  match s with
  | "" => ""
  | String c r =>
      let letter := is_lower c || is_upper c in
      String (if after_letter then lower c else upper c) (title_from letter r)
  end.

Definition underscore_to_space (c : ascii) : string :=
  if Ascii.eqb c "_"%char then " " else String c "".

(** The default title of a field: [name.title().replace('_', ' ')]. *)
Definition field_title (name : string) : string :=
  PyStr.flat_map_chars underscore_to_space (title_from false name).

Definition field_schema (f : ModelField) : string * json :=
  (field_name f,
   JObject [("title", JString (field_title (field_name f)));
            ("description", JString (field_description f));
            ("type", JString "string")]).

(** [cls.schema()]. *)
Definition schema (cls : ModelClass) : list (string * json) :=
  [("title", JString (class_name cls))]
  ++ (if String.eqb (class_doc cls) "" then []
      else [("description", JString (class_doc cls))])
  ++ [("type", JString "object");
      ("properties", JObject (map field_schema (class_fields cls)));
      ("required", JArray (map (fun f => JString (field_name f)) (class_fields cls)))].

(** One entry of a [ValidationError]. *)
Record ErrorWrapper : Type := mkError {
  err_loc : string;
  err_msg : string;
  err_type : string
}.

(** Validation of one present value against a required [str] field:
    [None] is refused, a string is taken as it is, a number or a boolean is
    converted with [str], anything else is refused. *)
Definition validate_str (loc : string) (v : json) : ErrorWrapper + string :=
  match v with
  | JNull => inl (mkError loc "none is not an allowed value" "type_error.none.not_allowed")
  | JString s => inr s
  | JNumber text => inr text
  | JBool true => inr "True"
  | JBool false => inr "False"
  | JArray _ | JObject _ => inl (mkError loc "str type expected" "type_error.str")
  end.

(** [validate_model]: the fields are visited in declaration order; every
    failure is recorded and the other fields are still validated. *)
Fixpoint validate_model (fields : list ModelField) (input_data : list (string * json))
  : list (string * string) * list ErrorWrapper :=
  match fields with
  | [] => ([], [])
  | f :: rest =>
      let (values, errors) := validate_model rest input_data in
      match Json.get (field_name f) input_data with
      | None =>
          (values, mkError (field_name f) "field required" "value_error.missing" :: errors)
      | Some v =>
          match validate_str (field_name f) v with
          | inr s => ((field_name f, s) :: values, errors)
          | inl err => (values, err :: errors)
          end
      end
  end.

Definition display_error (e : ErrorWrapper) : string :=
  err_loc e ++ PyStr.nl ++ "  " ++ err_msg e ++ " (type=" ++ err_type e ++ ")".

(** [str(e)] for a [ValidationError]. *)
Definition ValidationError (cls : ModelClass) (errors : list ErrorWrapper) : PyException :=
  mkException "ValidationError"
    (PyStr.of_nat (List.length errors) ++ " validation error"
     ++ (if Nat.eqb (List.length errors) 1 then "" else "s")
     ++ " for " ++ class_name cls ++ PyStr.nl
     ++ String.concat PyStr.nl (map display_error errors))
    None.

(** What the call [cls(...)] raises when the keyword arguments hold the name
    of the first parameter of [__init__(__pydantic_self__, ...)]; the message
    is the interpreter's. *)
Definition init_type_error : PyException :=
  TypeError "BaseModel.__init__() got multiple values for argument '__pydantic_self__'".

(** [cls.parse_obj(obj)] for a dict [obj]: the members of [obj] become the
    keyword arguments of the call [cls(...)], which raises [TypeError] before
    any validation when one of them is named [__pydantic_self__]; otherwise
    [__init__] validates them and the instance is its [__dict__], the
    validated values in field order; the other unknown keys are ignored. *)
Definition parse_obj (cls : ModelClass) (obj : list (string * json))
  : PyException + list (string * string) :=
  match Json.get "__pydantic_self__" obj with
  | Some _ => inl init_type_error
  | None =>
      match validate_model (class_fields cls) obj with
      | (values, []) => inr values
      | (_, errors) => inl (ValidationError cls errors)
      end
  end.

(** Attribute access on an instance. *)
Fixpoint getattr (instance : list (string * string)) (name : string) : option string :=
  match instance with
  | [] => None
  | (k, v) :: rest => if String.eqb k name then Some v else getattr rest name
  end.

End Pydantic.

(** ** LangChain: prompt templates and the pydantic output parser *)

Module LangChain.

(** [PromptTemplate]: a format string, the names of the variables the
    caller supplies, and the variables fixed at construction. *)
Record PromptTemplate : Type := mkPromptTemplate {
  input_variables : list string;
  template : string;
  partial_variables : list (string * string)
}.

(** [PromptTemplate.format]: the partial variables and the keyword
    arguments are merged, a keyword argument winning over a partial
    variable of the same name, and the template is formatted with them. *)
Definition format (self : PromptTemplate) (kwargs : list (string * PyVal))
  : PyException + string :=
  Formatter.format (template self)
    (kwargs ++ map (fun kv => (fst kv, PStr (snd kv))) (partial_variables self)).

(** The library constant [PYDANTIC_FORMAT_INSTRUCTIONS], a format string
    with the one field [schema]; each double quote of the constant is
    written as a tilde below. *)
Definition PYDANTIC_FORMAT_INSTRUCTIONS : string :=
  PyStr.tildes
    ("The output should be formatted as a JSON instance that conforms to the JSON schema below." ++ PyStr.nl ++
     PyStr.nl ++
     "As an example, for the schema {{~properties~: {{~foo~: {{~title~: ~Foo~, ~description~: ~a list of strings~, ~type~: ~array~, ~items~: {{~type~: ~string~}}}}}}, ~required~: [~foo~]}}" ++ PyStr.nl ++
     "the object {{~foo~: [~bar~, ~baz~]}} is a well-formatted instance of the schema. The object {{~properties~: {{~foo~: [~bar~, ~baz~]}}}} is not well-formatted." ++ PyStr.nl ++
     PyStr.nl ++
     "Here is the output schema:" ++ PyStr.nl ++
     "```" ++ PyStr.nl ++
     "{schema}" ++ PyStr.nl ++
     "```").

Record PydanticOutputParser : Type := mkParser {
  pydantic_object : Pydantic.ModelClass
}.

(** The text [get_format_instructions] returns: the schema of the model
    without its [title] and [type], dumped as JSON into the constant above.
    The call itself deletes the two keys from the dict pydantic keeps for
    the class; [SchemaCache.get_format_instructions] below is the call with
    this effect, and returns this text. *)
Definition get_format_instructions (self : PydanticOutputParser)
  : PyException + string :=
  let reduced_schema :=
    Json.remove "type" (Json.remove "title" (Pydantic.schema (pydantic_object self))) in
  Formatter.format PYDANTIC_FORMAT_INSTRUCTIONS
    [("schema", PStr (Json.dumps (JObject reduced_schema)))].

Definition OutputParserException (error llm_output : string) : PyException :=
  mkException "OutputParserException" error (Some llm_output).

(** The suffix of [s] that starts at its first opening brace. *)
Fixpoint from_first_open (s : string) : option string :=
  match s with
  | "" => None
  | String c r => if Ascii.eqb c "{"%char then Some s else from_first_open r
  end.

(** The prefix of [s] that ends at its last closing brace. *)
Fixpoint upto_last_close (s : string) : option string :=
  match s with
  | "" => None
  | String c r =>
      match upto_last_close r with
      | Some p => Some (String c p)
      | None => if Ascii.eqb c "}"%char then Some (String c "") else None
      end
  end.

(** [re.search] for an opening brace, anything (newlines too), a closing
    brace: the leftmost, longest match runs from the first opening brace
    to the last closing brace after it. *)
Definition search_braces (s : string) : option string :=
  match from_first_open s with
  | None => None
  | Some t => upto_last_close t
  end.

(** The JSON candidate [parse] hands to [json.loads]: the match in the
    stripped text, or the empty string. *)
Definition json_str (text : string) : string :=
  match search_braces (PyStr.strip text) with
  | Some m => m
  | None => ""
  end.

Definition failed_to_parse (name text got : string) : string :=
  "Failed to parse " ++ name ++ " from completion " ++ text ++ ". Got: " ++ got.

End LangChain.

(** ** The schema pydantic keeps for a model class *)

Module SchemaCache.

(** The entry of [cls.__schema_cache__] for the default arguments of
    [schema]: nothing until the schema is first asked for, then the dict that
    was returned.  Every later call returns that same dict, so that what a
    caller deletes from it is deleted for every later caller. *)
Definition cache : Type := option (list (string * json)).

(** [cls.schema()]: the dict of the cache, or the schema of the class, which
    is then kept. *)
Definition schema (cls : Pydantic.ModelClass) (c : cache)
  : list (string * json) * cache :=
  match c with
  | Some cached => (cached, c)
  | None => (Pydantic.schema cls, Some (Pydantic.schema cls))
  end.

(** [del d[key]] for each of the two keys the dict has. *)
Definition reduce (d : list (string * json)) : list (string * json) :=
  Json.remove "type" (Json.remove "title" d).

(** [get_format_instructions] as the library runs it: [title] and [type] are
    deleted from the dict [schema()] returned, which is the one of the cache,
    and what remains is dumped into the constant. *)
Definition get_format_instructions (self : LangChain.PydanticOutputParser) (c : cache)
  : (PyException + string) * cache :=
  let (schema, _) := schema (LangChain.pydantic_object self) c in
  let reduced_schema := reduce schema in
  (Formatter.format LangChain.PYDANTIC_FORMAT_INSTRUCTIONS
     [("schema", PStr (Json.dumps (JObject reduced_schema)))],
   Some reduced_schema).


End SchemaCache.

(** ** [core/analyzer.py]: the output model *)

(** The docstring of [QNASummary] as [inspect.getdoc] returns it: without the
    indentation and without the blank first and last lines. *)
Definition QNASummary_doc : string :=
  "Pydantic model representing the structure of the output summary." ++ PyStr.nl ++
  PyStr.nl ++
  "Attributes:" ++ PyStr.nl ++
  "- name: Name of the candidate." ++ PyStr.nl ++
  "- overall_impression: Brief description of the candidate's demeanor, communication skills, and presentation." ++ PyStr.nl ++
  "- chance_of_getting_the_job: Assessment of the candidate's suitability for the position." ++ PyStr.nl ++
  "- most_relevant_position: Suggested position based on skills and interview discussion." ++ PyStr.nl ++
  "- personal_capability: Summary of the candidate's soft skills (teamwork, communication, leadership, etc.)." ++ PyStr.nl ++
  "- psychological_capability: Evaluation of stress tolerance, adaptability, and emotional intelligence." ++ PyStr.nl ++
  "- technical_capability: Assessment of technical skills and knowledge." ++ PyStr.nl ++
  "- final_thoughts: Overall impression of the candidate and fit within the company culture.".

(** The class [QNASummary]: eight required [str] fields, each with its
    description, in declaration order. *)
Definition QNASummary : Pydantic.ModelClass :=
  Pydantic.mkModel "QNASummary" QNASummary_doc
    [Pydantic.mkField "name"
       "name of the candidate";
     Pydantic.mkField "overall_impression"
       "Briefly describe the candidate's general demeanor, communication skills, and presentation during the interview.";
     Pydantic.mkField "chance_of_getting_the_job"
       "Assess the candidate's overall suitability for the position based on their qualifications, experience, and interview performance.";
     Pydantic.mkField "most_relevant_position"
       "If the candidate applied for multiple positions, suggest the most suitable one based on their skills and the interview discussion.";
     Pydantic.mkField "personal_capability"
       "Summarize the candidate's soft skills, such as teamwork, communication, leadership, and problem-solving abilities, as demonstrated during the interview.";
     Pydantic.mkField "psychological_capability"
       "Evaluate the candidate's stress tolerance, adaptability, and emotional intelligence based on their responses and overall demeanor.";
     Pydantic.mkField "technical_capability"
       "Assess the candidate's technical skills and knowledge relevant to the specific job requirements. Briefly summarize their answers to technical questions and highlight areas of expertise or potential gaps.";
     Pydantic.mkField "final_thoughts"
       "Briefly summarize your overall impression of the candidate and their potential fit within the company culture. Provide any concluding remarks or recommendations for further evaluation if needed."].

(** ** [core/analyzer.py]: the analyzer *)

(** The [VertexAI] object, taken as the configuration every completion
    request of this object is made with; reaching the service is the part of
    the backend. *)
Record VertexAI : Type := mkVertexAI {
  model_name : string;
  max_output_tokens : Z;
  temperature : float
}.

Record HRInterviewAnalyzer : Type := mkAnalyzer {
  llm : VertexAI;
  parser : LangChain.PydanticOutputParser;
  hr_template : string;
  prompt_template : LangChain.PromptTemplate
}.

(** The template assigned to [self.hr_template]. *)
Definition HR_TEMPLATE : string :=
  PyStr.nl ++
  "            Here is a transcript of an HR interview for the {job_title} position at {company_name}. The candidate is {candidate_name}. Please analyze the interview and provide a bulleted summary with the following sections:" ++ PyStr.nl ++
  "            {format_instructions}" ++ PyStr.nl ++
  "            ---" ++ PyStr.nl ++
  PyStr.nl ++
  "            {interview_qna}" ++ PyStr.nl ++
  PyStr.nl ++
  "            ---" ++ PyStr.nl ++
  "            ".

(** One completion request as the backend receives it. *)
Record LLMCall : Type := mkCall {
  call_llm : VertexAI;
  call_prompt : string
}.

(** [HRInterviewAnalyzer.__init__], by what it returns: the constructor
    raises when the format instructions cannot be rendered.  Its effect on
    the schema pydantic keeps for [QNASummary] is in
    [HRInterviewAnalyzer_init_on] below. *)
Definition HRInterviewAnalyzer_init
    (model_name : string) (max_output_tokens : Z) (temperature : float)
  : PyException + HRInterviewAnalyzer :=
  let llm := mkVertexAI model_name max_output_tokens temperature in
  let parser := LangChain.mkParser QNASummary in
  let hr_template := HR_TEMPLATE in
  match LangChain.get_format_instructions parser with
  | inl e => inl e
  | inr format_instructions =>
      inr (mkAnalyzer llm parser hr_template
             (LangChain.mkPromptTemplate
                ["job_title"; "company_name"; "candidate_name"; "interview_qna"]
                hr_template
                [("format_instructions", format_instructions)]))
  end.

(** The constructor called with no argument. *)
Definition HRInterviewAnalyzer_default : PyException + HRInterviewAnalyzer :=
  HRInterviewAnalyzer_init "code-bison" 1000 0.3%float.


(** ** [api/main.py]: the request and response types *)

Record QNA : Type := mkQNA {
  question : string;
  answer : string
}.

Record HRInterviewInput : Type := mkInput {
  candidate_name : string;
  job_title : string;
  company_name : string;
  interview_qna : list QNA
}.

Record HTTPException : Type := mkHTTPException {
  status_code : Z;
  detail : string
}.

(** The list comprehension of [get_summary]: one dict per pair, the question
    first. *)
Definition interview_qna_list (input_data : HRInterviewInput) : PyVal :=
  PList (map (fun item => PDict [(PStr "question", PStr (question item));
                                 (PStr "answer", PStr (answer item))])
           (interview_qna input_data)).

(** ** What the properties below are stated with *)

(** The analyzer every construction in this program builds its parser from. *)
Definition QNASummary_parser : LangChain.PydanticOutputParser :=
  LangChain.mkParser QNASummary.

(** The names of the fields of [QNASummary], in declaration order. *)
Definition QNASummary_field_names : list string :=
  map Pydantic.field_name (Pydantic.class_fields QNASummary).

(** The format instructions of [QNASummary]: the text
    [get_format_instructions] returns for it. *)
Definition QNASummary_format_instructions : string :=
  match LangChain.get_format_instructions QNASummary_parser with
  | inr text => text
  | inl _ => ""
  end.

(** The field order of the specification's data model. *)
Definition spec_field_order : list string :=
  ["name"; "overall_impression"; "chance_of_getting_the_job";
   "most_relevant_position"; "personal_capability";
   "psychological_capability"; "technical_capability"; "final_thoughts"].

(** The label of a field in the schema of the format instructions: its
    quoted name, a colon and the opening brace of its description. *)
Definition schema_label (field : string) : string :=
  PyStr.dq ++ field ++ PyStr.dq ++ ": {".

Fixpoint increasing (offsets : list nat) : bool :=
  match offsets with
  | a :: (b :: _) as rest => (a <? b)%nat && increasing rest
  | _ => true
  end.

(** The prompt as the specification describes it: the text of the template
    with the three names, the format instructions and the transcript in the
    places of their fields. *)
Definition substituted_prompt
    (job_title company_name candidate_name format_instructions transcript : string)
  : string :=
  PyStr.nl ++
  "            Here is a transcript of an HR interview for the " ++ job_title ++
  " position at " ++ company_name ++ ". The candidate is " ++ candidate_name ++
  ". Please analyze the interview and provide a bulleted summary with the following sections:" ++ PyStr.nl ++
  "            " ++ format_instructions ++ PyStr.nl ++
  "            ---" ++ PyStr.nl ++
  PyStr.nl ++
  "            " ++ transcript ++ PyStr.nl ++
  PyStr.nl ++
  "            ---" ++ PyStr.nl ++
  "            ".

(** The prompt of one call of [analyze_interview] on an analyzer built by
    the constructor. *)
Definition prompt_for (job_title company_name candidate_name : string)
    (interview_qna : PyVal) : string :=
  substituted_prompt job_title company_name candidate_name
    QNASummary_format_instructions (py_str interview_qna).

(** The completion request [get_summary] makes for [input_data] with the
    configuration [llm]. *)
Definition request_for (llm : VertexAI) (input_data : HRInterviewInput) : LLMCall :=
  mkCall llm (prompt_for (job_title input_data) (company_name input_data)
                (candidate_name input_data) (interview_qna_list input_data)).

(** One pair as it stands in the transcript: a dict of two items, as Python
    prints it. *)
Definition qna_unit (item : QNA) : string :=
  "{'question': " ++ PyStr.repr_str (question item) ++
  ", 'answer': " ++ PyStr.repr_str (answer item) ++ "}".

(** One pair as the specification describes it: a numbered unit of a
    question line and an answer line. *)
Definition numbered_unit (index : nat) (item : QNA) : string :=
  PyStr.of_nat index ++ ". Question: " ++ question item ++ PyStr.nl ++
  "Answer: " ++ answer item.

(** ** Reading a transcript back

    The inverse of [repr] on strings and of the text of one pair, used to
    show that the transcript keeps every pair, in order. *)

Module Unrepr.

Definition hex_value (c : ascii) : option nat :=
  let n := nat_of_ascii c in
  if ((48 <=? n) && (n <=? 57))%nat then Some (n - 48)
  else if ((97 <=? n) && (n <=? 102))%nat then Some (n - 87)
  else None.

Definition hex_escape (h1 h2 : ascii) : option ascii :=
  match hex_value h1, hex_value h2 with
  | Some a, Some b => Some (ascii_of_nat (16 * a + b))
  | _, _ => None
  end.

Definition simple_escape (e : ascii) : option ascii :=
  if Ascii.eqb e "\" then Some "\"%char
  else if Ascii.eqb e "'" then Some "'"%char
  else if Ascii.eqb e "034" then Some "034"%char
  else if Ascii.eqb e "t" then Some "009"%char
  else if Ascii.eqb e "n" then Some "010"%char
  else if Ascii.eqb e "r" then Some "013"%char
  else None.

Definition push (c : option ascii) (r : option (string * string))
  : option (string * string) :=
  match c, r with
  | Some c, Some (s, rest) => Some (String c s, rest)
  | _, _ => None
  end.

(** The string whose [repr] body starts [s], up to the closing [quote], and
    the text after that quote. *)
Fixpoint body (quote : ascii) (s : string) : option (string * string) :=
  match s with
  | "" => None
  | String "\" (String "x" (String h1 (String h2 r))) =>
      push (hex_escape h1 h2) (body quote r)
  | String "\" (String e r) => push (simple_escape e) (body quote r)
  | String "\" "" => None
  | String c r =>
      if Ascii.eqb c quote then Some ("", r) else push (Some c) (body quote r)
  end.

Definition str (s : string) : option (string * string) :=
  match s with
  | String q r =>
      if Ascii.eqb q "'" || Ascii.eqb q "034" then body q r else None
  | "" => None
  end.

Fixpoint after (p s : string) : option string :=
  match p, s with
  | "", _ => Some s
  | String a p', String b s' => if Ascii.eqb a b then after p' s' else None
  | String _ _, "" => None
  end.

(** One pair read from the start of [s], and the text after it. *)
Definition unit (s : string) : option (QNA * string) :=
  match after "{'question': " s with
  | None => None
  | Some s1 =>
      match str s1 with
      | None => None
      | Some (q, s2) =>
          match after ", 'answer': " s2 with
          | None => None
          | Some s3 =>
              match str s3 with
              | None => None
              | Some (a, s4) =>
                  match after "}" s4 with
                  | None => None
                  | Some s5 => Some (mkQNA q a, s5)
                  end
              end
          end
      end
  end.

End Unrepr.

(** What follows the first pair in the transcript: the other pairs, each
    after a comma and a space, and the closing bracket. *)
Fixpoint transcript_tail (items : list QNA) : string :=
  match items with
  | [] => "]"
  | item :: rest => ", " ++ qna_unit item ++ transcript_tail rest
  end.

(** ** The scenarios of the specification *)

Module Scenario.

Definition Q1A1 : HRInterviewInput :=
  mkInput "Jane Doe" "Backend Engineer" "Acme" [mkQNA "Q1" "A1"].

Definition jane : HRInterviewInput :=
  mkInput "Jane Doe" "Backend Engineer" "Acme"
    [mkQNA "Tell me about yourself"
           "I am a backend engineer with 5 years experience."].

(** A completion with the eight fields, the last declared ones first. *)
Definition labeled_text : string :=
  PyStr.tildes
    ("Here is the summary: {~final_thoughts~: ~Hire.~, ~technical_capability~: ~Strong~, "
     ++ "~psychological_capability~: ~Calm~, ~personal_capability~: ~Team player~, "
     ++ "~most_relevant_position~: ~Backend Engineer~, ~chance_of_getting_the_job~: ~High~, "
     ++ "~overall_impression~: ~Clear and concise~, ~name~: ~Jane Doe~}").

(** The content of each field in [labeled_text]. *)
Definition labeled_content (field : string) : string :=
  if String.eqb field "name" then "Jane Doe"
  else if String.eqb field "overall_impression" then "Clear and concise"
  else if String.eqb field "chance_of_getting_the_job" then "High"
  else if String.eqb field "most_relevant_position" then "Backend Engineer"
  else if String.eqb field "personal_capability" then "Team player"
  else if String.eqb field "psychological_capability" then "Calm"
  else if String.eqb field "technical_capability" then "Strong"
  else "Hire.".

(** A completion with the eight fields in declaration order, each on a
    line of its own, between two fences. *)
Definition fenced_text : string :=
  "```json" ++ PyStr.nl
  ++ PyStr.tildes
       ("{" ++ PyStr.nl
        ++ "  ~name~: ~Jane Doe~," ++ PyStr.nl
        ++ "  ~overall_impression~: ~Clear and concise~," ++ PyStr.nl
        ++ "  ~chance_of_getting_the_job~: ~High~," ++ PyStr.nl
        ++ "  ~most_relevant_position~: ~Backend Engineer~," ++ PyStr.nl
        ++ "  ~personal_capability~: ~Team player~," ++ PyStr.nl
        ++ "  ~psychological_capability~: ~Calm~," ++ PyStr.nl
        ++ "  ~technical_capability~: ~Strong~," ++ PyStr.nl
        ++ "  ~final_thoughts~: ~Hire.~" ++ PyStr.nl
        ++ "}")
  ++ PyStr.nl ++ "```".

(** A completion without [final_thoughts]. *)
Definition incomplete_text : string :=
  PyStr.tildes
    ("{~name~: ~Jane Doe~, ~overall_impression~: ~Clear~, "
     ++ "~chance_of_getting_the_job~: ~High~, ~most_relevant_position~: ~Backend Engineer~, "
     ++ "~personal_capability~: ~Team player~, ~psychological_capability~: ~Calm~, "
     ++ "~technical_capability~: ~Strong~}").

Definition unlabeled_text : string := "Sorry, I cannot help.".

(** Backends that answer every request in the same way. *)
Definition answers (text : string) (_ : list LLMCall) (_ : LLMCall)
  : PyException + string := inr text.

Definition transport_failure : PyException :=
  mkException "ServiceUnavailable" "503 failed to connect to all addresses" None.

Definition fails (_ : list LLMCall) (_ : LLMCall) : PyException + string :=
  inl transport_failure.

End Scenario.

(** ** More of what the properties are stated with *)

(** [s.isprintable()]: every character is printable. *)
Fixpoint str_isprintable (s : string) : bool :=
  match s with
  | "" => true
  | String c r => PyStr.isprintable c && str_isprintable r
  end.

(** The text a required [str] field takes from a member: a string as it is,
    a number or a boolean as Python prints it, nothing from [null], an
    array or an object. *)
Definition scalar_text (v : json) : option string :=
  match v with
  | JString s => Some s
  | JNumber text => Some text
  | JBool true => Some "True"
  | JBool false => Some "False"
  | JNull | JArray _ | JObject _ => None
  end.

(** The field [field] of an instance is the text of the member labeled
    [field] among [members]. *)
Definition field_from (members : list (string * json))
    (field : string) (entry : string * string) : Prop :=
  fst entry = field
  /\ exists v, Json.get field members = Some v /\ scalar_text v = Some (snd entry).

(** The object that labels each field of [order] with the string [content]
    gives it. *)
Definition labeled_object (content : string -> string) (order : list string)
  : list (string * json) :=
  map (fun field => (field, JString (content field))) order.

(** One member of an object as [json.dumps] writes it. *)
Definition member_text (kv : string * json) : string :=
  Json.dumps_str (fst kv) ++ ": " ++ Json.dumps (snd kv).

(** The white space a writer of JSON puts around the tokens of one member of
    an object: before the key, before the colon, after the colon and after
    the value. *)
Record Spacing : Type := mkSpacing {
  before_key : string;
  before_colon : string;
  after_colon : string;
  after_value : string
}.

(** [s] is made of the white space of JSON: spaces, tabs, line feeds and
    carriage returns. *)
Fixpoint blank (s : string) : bool :=
  match s with
  | "" => true
  | String c r => JsonText.is_ws c && blank r
  end.

Definition blank_spacing (sp : Spacing) : bool :=
  blank (before_key sp) && blank (before_colon sp)
  && blank (after_colon sp) && blank (after_value sp).

(** One member in its white space, the key and the value written as
    [json.dumps] writes them. *)
Definition spaced_member (m : Spacing * (string * json)) : string :=
  before_key (fst m) ++ Json.dumps_str (fst (snd m)) ++ before_colon (fst m)
  ++ ":" ++ after_colon (fst m) ++ Json.dumps (snd (snd m)) ++ after_value (fst m).

(** The text of an object: its members, each in its white space, between
    the braces and with commas between them. *)
Definition object_text (laid_out : list (Spacing * (string * json))) : string :=
  "{" ++ String.concat "," (map spaced_member laid_out) ++ "}".

(** The white space of [json.dumps]: a space after each colon and after
    each comma. *)
Definition dumps_layout (members : list (string * json))
  : list (Spacing * (string * json)) :=
  match members with
  | [] => []
  | kv :: rest =>
      (mkSpacing "" "" " " "", kv)
      :: map (fun kv => (mkSpacing " " "" " " "", kv)) rest
  end.

(** The white space of [json.dumps] with an indent of two spaces: each
    member on a line of its own. *)
Definition indented_layout (members : list (string * json))
  : list (Spacing * (string * json)) :=
  match rev members with
  | [] => []
  | last_kv :: others =>
      (map (fun kv => (mkSpacing (PyStr.nl ++ "  ") "" " " "", kv)) (rev others)
       ++ [(mkSpacing (PyStr.nl ++ "  ") "" " " PyStr.nl, last_kv)])%list
  end.

(** A completion whose object has a member named as the first parameter of
    the constructor of a model. *)
Definition self_named_text : string :=
  PyStr.tildes "{~__pydantic_self__~: 1}".

(** A backend that ends every request with the exception [e]. *)
Definition fails_with (e : PyException) (_ : list LLMCall) (_ : LLMCall)
  : PyException + string := inl e.

(** A completion in which one field is a number, one a boolean and one the
    empty string. *)
Definition coerced_text : string :=
  PyStr.tildes
    ("{~name~: ~Jane Doe~, ~overall_impression~: ~Clear~, "
     ++ "~chance_of_getting_the_job~: 85, ~most_relevant_position~: ~Backend Engineer~, "
     ++ "~personal_capability~: true, ~psychological_capability~: ~~, "
     ++ "~technical_capability~: ~Strong~, ~final_thoughts~: ~Hire.~}").

(** What [parse] raises for the completion without [final_thoughts]. *)
Definition missing_final_thoughts : PyException :=
  LangChain.OutputParserException
    (LangChain.failed_to_parse "QNASummary" Scenario.incomplete_text
       ("1 validation error for QNASummary" ++ PyStr.nl
        ++ "final_thoughts" ++ PyStr.nl
        ++ "  field required (type=value_error.missing)"))
    Scenario.incomplete_text.

(** ** The running program *)

(** The state of the process: the module-level [analyzer] of [main.py] and the
    completion requests sent to the backend so far, oldest first. *)
Record Process : Type := mkProcess {
  analyzer : HRInterviewAnalyzer;
  outbound : list LLMCall
}.

(** Computations that read and write the process state and may raise. *)
Definition M (A : Type) : Type := Process -> (PyException + A) * Process.

Definition ret {A : Type} (a : A) : M A := fun p => (inr a, p).

Definition raise {A : Type} (e : PyException) : M A := fun p => (inl e, p).

Definition bind {A B : Type} (m : M A) (k : A -> M B) : M B :=
  fun p =>
    match m p with
    | (inr a, p') => k a p'
    | (inl e, p') => (inl e, p')
    end.

Notation "x <- m ;; k" := (bind m (fun x => k))
  (at level 61, m at next level, right associativity).

(** A call that raises or returns without touching the state. *)
Definition lift {A : Type} (r : PyException + A) : M A :=
  fun p => (r, p).

(** Reads an attribute of the analyzer object. *)
Definition self_attr {A : Type} (attr : HRInterviewAnalyzer -> A) : M A :=
  fun p => (inr (attr (analyzer p)), p).

Section Program.

(** [json.loads(s, strict=False)] on the candidates [parse] hands to it,
    which are empty or start with an opening brace: it returns a dict, given
    by the members of the object in document order, or raises: a
    [JSONDecodeError] for a text that is not JSON, and exceptions of other
    classes too ([RecursionError] for deep nesting, [ValueError] for an
    integer beyond the digit limit of the interpreter). *)
Variable json_loads : string -> PyException + list (string * json).

(** The model backend: the completion for a request, or the exception the
    request ends with, which may depend on the requests made before. *)
Variable backend : list LLMCall -> LLMCall -> PyException + string.

(** [llm(prompt)]: one request to the backend. *)
Definition invoke (llm : VertexAI) (prompt : string) : M string :=
  fun p =>
    let call := mkCall llm prompt in
    (backend (outbound p) call,
     mkProcess (analyzer p) (outbound p ++ [call])).

(** The [except] clause of [parse]: a [JSONDecodeError] or a
    [ValidationError] is raised again as an [OutputParserException] whose
    message quotes the text and whose [llm_output] is the text; an exception
    of another class is not caught and leaves [parse] as it is. *)
Definition parse_except (name text : string) (e : PyException) : PyException :=
  if is_instance e "JSONDecodeError" || is_instance e "ValidationError"
  then LangChain.OutputParserException
         (LangChain.failed_to_parse name text (exc_str e)) text
  else e.

(** [PydanticOutputParser.parse]: inside one [try], the JSON candidate of
    the text is decoded with [json.loads] and the object is handed to
    [parse_obj]. *)
Definition parse (self : LangChain.PydanticOutputParser) (text : string)
  : PyException + list (string * string) :=
  let name := Pydantic.class_name (LangChain.pydantic_object self) in
  match json_loads (LangChain.json_str text) with
  | inl e => inl (parse_except name text e)
  | inr json_object =>
      match Pydantic.parse_obj (LangChain.pydantic_object self) json_object with
      | inl e => inl (parse_except name text e)
      | inr instance => inr instance
      end
  end.

(** [HRInterviewAnalyzer.analyze_interview]. *)
Definition analyze_interview
    (job_title company_name candidate_name : string) (interview_qna : PyVal)
  : M (list (string * string)) :=
  template <- self_attr prompt_template ;;
  input_data <- lift (LangChain.format template
                        [("job_title", PStr job_title);
                         ("company_name", PStr company_name);
                         ("candidate_name", PStr candidate_name);
                         ("interview_qna", interview_qna)]) ;;
  parser <- self_attr parser ;;
  llm <- self_attr llm ;;
  text <- invoke llm input_data ;;
  lift (parse parser text).

(** The handler of [POST /get_summary]: the dict of the result, or the
    [HTTPException] raised. *)
Definition get_summary (input_data : HRInterviewInput)
  : Process -> (HTTPException + list (string * string)) * Process :=
  fun p =>
    match analyze_interview (job_title input_data) (company_name input_data)
            (candidate_name input_data) (interview_qna_list input_data) p with
    | (inr result, p') => (inr result, p')
    | (inl e, p') => (inl (mkHTTPException 500 (exc_str e)), p')
    end.

(** The requests of [inputs] handled one after the other. *)
Fixpoint serve (inputs : list HRInterviewInput) (p : Process)
  : list (HTTPException + list (string * string)) * Process :=
  match inputs with
  | [] => ([], p)
  | input_data :: rest =>
      let (response, p') := get_summary input_data p in
      let (responses, p'') := serve rest p' in
      (response :: responses, p'')
  end.

(** ** Python strings: occurrences *)

Lemma startswith_append (p rest : string) :
  PyStr.startswith p (p ++ rest) = true.
Proof.
  induction p as [| c p IH]; simpl.
  - reflexivity.
  - rewrite Ascii.eqb_refl. exact IH.
Qed.

Lemma contains_startswith (p s : string) :
  PyStr.startswith p s = true -> PyStr.contains p s = true.
Proof. destruct s; simpl; intros ->; reflexivity. Qed.

(** An occurrence of [p] anywhere in [s] is seen by [contains]. *)
Lemma contains_occurrence (p pre post : string) :
  PyStr.contains p (pre ++ p ++ post) = true.
Proof.
  induction pre as [| c pre IH].
  - simpl. apply contains_startswith, startswith_append.
  - simpl. rewrite IH. apply orb_true_r.
Qed.

Lemma not_contains_no_occurrence (p s : string) :
  PyStr.contains p s = false ->
  ~ exists pre post, s = pre ++ p ++ post.
Proof.
  intros H [pre [post E]]. subst s.
  rewrite contains_occurrence in H. discriminate.
Qed.

(** ** The constructor *)

Lemma get_format_instructions_QNASummary :
  LangChain.get_format_instructions QNASummary_parser
  = inr QNASummary_format_instructions.
Proof. vm_compute. reflexivity. Qed.

Lemma HRInterviewAnalyzer_init_returns
    (model_name : string) (max_output_tokens : Z) (temperature : float) :
  HRInterviewAnalyzer_init model_name max_output_tokens temperature
  = inr (mkAnalyzer (mkVertexAI model_name max_output_tokens temperature)
           QNASummary_parser HR_TEMPLATE
           (LangChain.mkPromptTemplate
              ["job_title"; "company_name"; "candidate_name"; "interview_qna"]
              HR_TEMPLATE
              [("format_instructions", QNASummary_format_instructions)])).
Proof.
  unfold HRInterviewAnalyzer_init.
  change (LangChain.mkParser QNASummary) with QNASummary_parser.
  rewrite get_format_instructions_QNASummary. reflexivity.
Qed.

(** ** The prompt *)

Lemma format_HR_TEMPLATE
    (input_variables : list string)
    (job_title company_name candidate_name format_instructions : string)
    (interview_qna : PyVal) :
  LangChain.format
    (LangChain.mkPromptTemplate input_variables HR_TEMPLATE
       [("format_instructions", format_instructions)])
    [("job_title", PStr job_title); ("company_name", PStr company_name);
     ("candidate_name", PStr candidate_name); ("interview_qna", interview_qna)]
  = inr (substituted_prompt job_title company_name candidate_name
           format_instructions (py_str interview_qna)).
Proof. vm_compute. reflexivity. Qed.

(** ** One call, one request, any number of requests *)

(** What one call of [analyze_interview] does on an analyzer built by the
    constructor: one request with the prompt of the call, then the result
    of the parser on the completion. *)
Lemma analyze_interview_run
    (model_name : string) (max_output_tokens : Z) (temperature : float)
    (self : HRInterviewAnalyzer)
    (job_title company_name candidate_name : string) (interview_qna : PyVal)
    (sent : list LLMCall) :
  HRInterviewAnalyzer_init model_name max_output_tokens temperature = inr self ->
  analyze_interview job_title company_name candidate_name interview_qna
    (mkProcess self sent)
  = (match backend sent
             (mkCall (llm self)
                (prompt_for job_title company_name candidate_name interview_qna)) with
     | inl e => inl e
     | inr text => parse (parser self) text
     end,
     mkProcess self
       (sent ++ [mkCall (llm self)
                   (prompt_for job_title company_name candidate_name interview_qna)])).
Proof.
  rewrite HRInterviewAnalyzer_init_returns. intros [= <-].
  unfold analyze_interview, bind, self_attr, lift, invoke.
  cbn [analyzer outbound prompt_template llm parser].
  rewrite format_HR_TEMPLATE. fold (prompt_for job_title company_name candidate_name interview_qna).
  destruct (backend sent _); reflexivity.
Qed.

Lemma get_summary_run
    (model_name : string) (max_output_tokens : Z) (temperature : float)
    (self : HRInterviewAnalyzer) (input_data : HRInterviewInput)
    (sent : list LLMCall) :
  HRInterviewAnalyzer_init model_name max_output_tokens temperature = inr self ->
  snd (get_summary input_data (mkProcess self sent))
  = mkProcess self (sent ++ [request_for (llm self) input_data]).
Proof.
  intros Hinit. unfold get_summary.
  rewrite analyze_interview_run with (1 := Hinit).
  fold (request_for (llm self) input_data).
  destruct (backend sent _) as [e | text]; [reflexivity |].
  destruct (parse (parser self) text); reflexivity.
Qed.

(** Serving requests leaves the analyzer as it is and adds one completion
    request per request served, in order. *)
Lemma serve_run
    (model_name : string) (max_output_tokens : Z) (temperature : float)
    (self : HRInterviewAnalyzer) (inputs : list HRInterviewInput) :
  HRInterviewAnalyzer_init model_name max_output_tokens temperature = inr self ->
  forall sent,
    snd (serve inputs (mkProcess self sent))
    = mkProcess self (sent ++ map (request_for (llm self)) inputs).
Proof.
  intros Hinit. induction inputs as [| input_data rest IH]; intros sent.
  - simpl. rewrite app_nil_r. reflexivity.
  - simpl.
    pose proof (get_summary_run _ _ _ _ input_data sent Hinit) as Hstep.
    destruct (get_summary input_data (mkProcess self sent)) as [response p'].
    simpl in Hstep. subst p'.
    specialize (IH (sent ++ [request_for (llm self) input_data])%list).
    destruct (serve rest _) as [responses p''].
    simpl in IH. simpl. rewrite IH, <- app_assoc. reflexivity.
Qed.

(** ** Lookup in the members of an object *)

Lemma get_in_keys (key : string) (members : list (string * json)) (v : json) :
  Json.get key members = Some v -> In key (map fst members).
Proof.
  revert v. induction members as [| [k x] rest IH]; simpl; intros v H.
  - discriminate H.
  - destruct (Json.get key rest) as [later |].
    + right. apply (IH later). reflexivity.
    + destruct (String.eqb k key) eqn:E; [| discriminate H].
      left. apply String.eqb_eq. exact E.
Qed.

(** The member of a key that stands once among the members is the one
    found, wherever it stands. *)
Lemma get_of_unique_key (key : string) (v : json) (members : list (string * json)) :
  NoDup (map fst members) -> In (key, v) members -> Json.get key members = Some v.
Proof.
  induction members as [| [k x] rest IH]; simpl; intros Hnd Hin.
  - destruct Hin.
  - inversion Hnd as [| ? ? Hnotin Hrest]; subst.
    destruct Hin as [Heq | Hin].
    + injection Heq as -> ->.
      destruct (Json.get key rest) as [later |] eqn:E.
      * exfalso. apply Hnotin. exact (get_in_keys _ _ _ E).
      * rewrite String.eqb_refl. reflexivity.
    + rewrite (IH Hrest Hin). reflexivity.
Qed.

(** ** Validation *)

(** When every field has a string in the input, validation returns these
    strings, field by field, and no error. *)
Lemma validate_model_strings
    (content : string -> string) (members : list (string * json))
    (fields : list Pydantic.ModelField) :
  (forall f, In f fields ->
     Json.get (Pydantic.field_name f) members
     = Some (JString (content (Pydantic.field_name f)))) ->
  Pydantic.validate_model fields members
  = (map (fun f => (Pydantic.field_name f, content (Pydantic.field_name f))) fields, []).
Proof.
  induction fields as [| f rest IH]; intros H.
  - reflexivity.
  - simpl. rewrite IH by (intros g Hg; apply H; right; exact Hg).
    rewrite (H f) by (left; reflexivity). reflexivity.
Qed.

(** A field without a member in the input leaves an error. *)
Lemma validate_model_missing
    (members : list (string * json)) (fields : list Pydantic.ModelField)
    (f : Pydantic.ModelField) :
  In f fields ->
  Json.get (Pydantic.field_name f) members = None ->
  snd (Pydantic.validate_model fields members) <> [].
Proof.
  induction fields as [| g rest IH]; intros Hin Hget.
  - destruct Hin.
  - simpl. destruct (Pydantic.validate_model rest members) as [values errors] eqn:E.
    destruct Hin as [-> | Hin].
    + rewrite Hget. simpl. discriminate.
    + specialize (IH Hin Hget). simpl in IH.
      destruct (Json.get (Pydantic.field_name g) members) as [v |]; [| simpl; discriminate].
      destruct (Pydantic.validate_str (Pydantic.field_name g) v); simpl;
        [discriminate | exact IH].
Qed.

(** Validation without an error has a value for every field, in field
    order. *)
Lemma validate_model_complete
    (members : list (string * json)) (fields : list Pydantic.ModelField) :
  snd (Pydantic.validate_model fields members) = [] ->
  map fst (fst (Pydantic.validate_model fields members))
  = map Pydantic.field_name fields.
Proof.
  induction fields as [| g rest IH]; intros H.
  - reflexivity.
  - simpl in *. destruct (Pydantic.validate_model rest members) as [values errors].
    destruct (Json.get (Pydantic.field_name g) members) as [v |]; [| discriminate H].
    destruct (Pydantic.validate_str (Pydantic.field_name g) v); [discriminate H |].
    simpl in *. rewrite IH by exact H. reflexivity.
Qed.

Lemma parse_obj_complete
    (cls : Pydantic.ModelClass) (members : list (string * json))
    (instance : list (string * string)) :
  Pydantic.parse_obj cls members = inr instance ->
  map fst instance = map Pydantic.field_name (Pydantic.class_fields cls).
Proof.
  unfold Pydantic.parse_obj. intros H.
  destruct (Json.get "__pydantic_self__" members); [discriminate H |].
  pose proof (validate_model_complete members (Pydantic.class_fields cls)) as Hc.
  destruct (Pydantic.validate_model (Pydantic.class_fields cls) members)
    as [values [| err errors]]; [| discriminate H].
  injection H as <-. apply Hc. reflexivity.
Qed.

(** What [parse_obj] raises: the [TypeError] of the call, for a member named
    [__pydantic_self__], or else a [ValidationError]. *)
Lemma parse_obj_raises
    (cls : Pydantic.ModelClass) (members : list (string * json)) (e : PyException) :
  Pydantic.parse_obj cls members = inl e ->
  (Json.get "__pydantic_self__" members <> None /\ e = Pydantic.init_type_error)
  \/ (Json.get "__pydantic_self__" members = None
      /\ exists errors, e = Pydantic.ValidationError cls errors).
Proof.
  unfold Pydantic.parse_obj. intros H.
  destruct (Json.get "__pydantic_self__" members) as [v |].
  - left. injection H as <-. split; [discriminate | reflexivity].
  - right. split; [reflexivity |].
    destruct (Pydantic.validate_model (Pydantic.class_fields cls) members)
      as [values [| err errors]]; [discriminate H |].
    injection H as <-. eexists. reflexivity.
Qed.

Lemma parse_obj_missing
    (cls : Pydantic.ModelClass) (members : list (string * json))
    (f : Pydantic.ModelField) :
  Json.get "__pydantic_self__" members = None ->
  In f (Pydantic.class_fields cls) ->
  Json.get (Pydantic.field_name f) members = None ->
  exists errors, Pydantic.parse_obj cls members = inl (Pydantic.ValidationError cls errors).
Proof.
  intros Hself Hin Hget. unfold Pydantic.parse_obj. rewrite Hself.
  pose proof (validate_model_missing members _ f Hin Hget) as Hne.
  destruct (Pydantic.validate_model (Pydantic.class_fields cls) members)
    as [values [| err errors]].
  - exfalso. apply Hne. reflexivity.
  - eexists. reflexivity.
Qed.

Lemma parse_except_caught (name text : string) (e : PyException) :
  exc_class e = "JSONDecodeError" \/ exc_class e = "ValidationError" ->
  parse_except name text e
  = LangChain.OutputParserException
      (LangChain.failed_to_parse name text (exc_str e)) text.
Proof.
  unfold parse_except, is_instance. intros [-> | ->]; reflexivity.
Qed.

(** What [parse] raises is an [OutputParserException] that quotes and
    carries the text, or an exception [json.loads] raised that is neither a
    [JSONDecodeError] nor a [ValidationError], or the [TypeError] of the
    constructor for a member named [__pydantic_self__]. *)
Lemma parse_failure_cases
    (self : LangChain.PydanticOutputParser) (text : string) (e : PyException) :
  parse self text = inl e ->
  (exists got,
     e = LangChain.OutputParserException
           (LangChain.failed_to_parse
              (Pydantic.class_name (LangChain.pydantic_object self)) text got)
           text)
  \/ (json_loads (LangChain.json_str text) = inl e
      /\ exc_class e <> "JSONDecodeError" /\ exc_class e <> "ValidationError")
  \/ (exists members,
        json_loads (LangChain.json_str text) = inr members
        /\ Json.get "__pydantic_self__" members <> None
        /\ e = Pydantic.init_type_error).
Proof.
  unfold parse. intros H.
  destruct (json_loads (LangChain.json_str text)) as [e0 | members] eqn:Hloads.
  - injection H as <-. unfold parse_except, is_instance.
    destruct (String.eqb (exc_class e0) "JSONDecodeError") eqn:E1;
      [left; eexists; reflexivity |].
    destruct (String.eqb (exc_class e0) "ValidationError") eqn:E2;
      [left; eexists; reflexivity |].
    right. left. cbn [orb]. split; [reflexivity |].
    split; apply String.eqb_neq; assumption.
  - destruct (Pydantic.parse_obj _ members) as [e' | instance] eqn:E; [| discriminate H].
    injection H as <-.
    destruct (parse_obj_raises _ _ _ E) as [[Hself ->] | [_ [errors ->]]].
    + right. right. exists members.
      split; [reflexivity | split; [exact Hself | reflexivity]].
    + left. rewrite parse_except_caught by (right; reflexivity).
      eexists. reflexivity.
Qed.

(** An instance [parse] returns for [QNASummary] has the eight fields. *)
Lemma parse_instance_complete (text : string) (instance : list (string * string)) :
  parse QNASummary_parser text = inr instance ->
  map fst instance = QNASummary_field_names.
Proof.
  unfold parse. intros H.
  destruct (json_loads (LangChain.json_str text)) as [e | members];
    [discriminate H |].
  destruct (Pydantic.parse_obj (LangChain.pydantic_object QNASummary_parser) members)
    as [e | instance'] eqn:E; [discriminate H |].
  injection H as <-. exact (parse_obj_complete _ _ _ E).
Qed.

(** ** The parser *)


(** When the completion decodes to an object without a member named
    [__pydantic_self__] in which each of the eight fields is labeled with a
    string, wherever the label stands among the members and whatever other
    members there are, [parse] returns the instance whose fields are exactly
    these strings. *)
Lemma parse_labeled_members
    (text : string) (members : list (string * json)) (content : string -> string) :
  json_loads (LangChain.json_str text) = inr members ->
  Json.get "__pydantic_self__" members = None ->
  (forall field, In field QNASummary_field_names ->
     Json.get field members = Some (JString (content field))) ->
  parse QNASummary_parser text
  = inr (map (fun field => (field, content field)) QNASummary_field_names).
Proof.
  intros Hloads Hself Hfields. unfold parse. rewrite Hloads.
  change (LangChain.pydantic_object QNASummary_parser) with QNASummary.
  unfold Pydantic.parse_obj. rewrite Hself.
  rewrite (validate_model_strings content).
  - unfold QNASummary_field_names. rewrite map_map. reflexivity.
  - intros f Hin. apply Hfields. unfold QNASummary_field_names.
    apply in_map. exact Hin.
Qed.

(** ** The analyzer *)

(** C4, as the code has it: when the request to the backend ends with an
    exception, the call of [analyze_interview] ends with this very
    exception, with no wrapper and no stage around it, after that single
    request; a failure of the parser is the same exception only when it is
    an [OutputParserException] that carries the completion, an exception
    [json.loads] raised, or the [TypeError] of the constructor of the model,
    so that the class of the exception tells the two apart only outside of
    these. *)
Theorem backend_failure_propagates
    (model_name : string) (max_output_tokens : Z) (temperature : float)
    (self : HRInterviewAnalyzer)
    (job_title company_name candidate_name : string) (interview_qna : PyVal)
    (sent : list LLMCall) (e : PyException) :
  HRInterviewAnalyzer_init model_name max_output_tokens temperature = inr self ->
  backend sent
    (mkCall (llm self) (prompt_for job_title company_name candidate_name interview_qna))
  = inl e ->
  analyze_interview job_title company_name candidate_name interview_qna
    (mkProcess self sent)
  = (inl e,
     mkProcess self
       (sent ++ [mkCall (llm self)
                   (prompt_for job_title company_name candidate_name interview_qna)]))
  /\ (forall text,
        parse (parser self) text = inl e ->
        (exists error, e = LangChain.OutputParserException error text)
        \/ json_loads (LangChain.json_str text) = inl e
        \/ e = Pydantic.init_type_error).
Proof.
  intros Hinit Hfail. split.
  - rewrite analyze_interview_run with (1 := Hinit). rewrite Hfail. reflexivity.
  - intros text H.
    destruct (parse_failure_cases _ _ _ H) as [[got ->] | [[Hraw _] | [members [_ [_ ->]]]]].
    + left. eexists. reflexivity.
    + right. left. exact Hraw.
    + right. right. reflexivity.
Qed.

(** ** The format instructions and the schema cache *)







(** C7: a call of [analyze_interview] makes exactly one request to the
    backend and changes nothing else: the analyzer, with its configuration,
    template and format instructions, is the same after any number of
    requests, and the requests sent are one per request served. *)
Theorem analyze_interview_one_request_no_other_effect
    (model_name : string) (max_output_tokens : Z) (temperature : float) :
  exists self,
    HRInterviewAnalyzer_init model_name max_output_tokens temperature = inr self
    /\ (forall job_title company_name candidate_name interview_qna sent,
          snd (analyze_interview job_title company_name candidate_name interview_qna
                 (mkProcess self sent))
          = mkProcess self
              (sent ++ [mkCall (llm self)
                          (prompt_for job_title company_name candidate_name
                             interview_qna)]))
    /\ (forall inputs sent,
          analyzer (snd (serve inputs (mkProcess self sent))) = self
          /\ outbound (snd (serve inputs (mkProcess self sent)))
             = (sent ++ map (request_for (llm self)) inputs)%list
          /\ List.length (outbound (snd (serve inputs (mkProcess self sent))))
             = (List.length sent + List.length inputs)%nat).
Proof.
  eexists. split; [apply HRInterviewAnalyzer_init_returns |]. split.
  - intros. rewrite analyze_interview_run
      with (1 := HRInterviewAnalyzer_init_returns model_name max_output_tokens temperature).
    reflexivity.
  - intros inputs sent.
    rewrite serve_run
      with (1 := HRInterviewAnalyzer_init_returns model_name max_output_tokens temperature).
    cbn [analyzer outbound].
    split; [reflexivity | split; [reflexivity |]].
    rewrite length_app, length_map. reflexivity.
Qed.

(** C8: the prompt of a call is the text of the template with the job
    title, the company name, the candidate name, the format instructions
    and the transcript put in the places of their fields, as they are; the
    request of a call carries the prompt of that call, whatever was sent
    before. *)
Theorem prompt_is_template_substitution
    (model_name : string) (max_output_tokens : Z) (temperature : float) :
  exists self,
    HRInterviewAnalyzer_init model_name max_output_tokens temperature = inr self
    /\ (forall job_title company_name candidate_name interview_qna,
          LangChain.format (prompt_template self)
            [("job_title", PStr job_title); ("company_name", PStr company_name);
             ("candidate_name", PStr candidate_name);
             ("interview_qna", interview_qna)]
          = inr (substituted_prompt job_title company_name candidate_name
                   QNASummary_format_instructions (py_str interview_qna)))
    /\ (forall job_title company_name candidate_name interview_qna sent,
          outbound (snd (analyze_interview job_title company_name candidate_name
                           interview_qna (mkProcess self sent)))
          = (sent ++ [mkCall (llm self)
                        (substituted_prompt job_title company_name candidate_name
                           QNASummary_format_instructions (py_str interview_qna))])%list).
Proof.
  eexists. split; [apply HRInterviewAnalyzer_init_returns |]. split.
  - intros. apply format_HR_TEMPLATE.
  - intros. rewrite analyze_interview_run
      with (1 := HRInterviewAnalyzer_init_returns model_name max_output_tokens temperature).
    reflexivity.
Qed.

(** C10: the constructor called with no argument sets the model name to
    code-bison, the token limit to 1000 and the temperature to 0.3, and
    every request of this analyzer reaches the backend with these values. *)
Theorem default_configuration_reaches_backend :
  exists self,
    HRInterviewAnalyzer_default = inr self
    /\ model_name (llm self) = "code-bison"
    /\ max_output_tokens (llm self) = 1000%Z
    /\ temperature (llm self) = 0.3%float
    /\ forall inputs,
         outbound (snd (serve inputs (mkProcess self [])))
         = map (request_for (mkVertexAI "code-bison" 1000 0.3)) inputs.
Proof.
  eexists. split; [apply HRInterviewAnalyzer_init_returns |].
  repeat (split; [reflexivity |]).
  intros inputs.
  rewrite serve_run with (1 := HRInterviewAnalyzer_init_returns _ _ _).
  reflexivity.
Qed.

(** ** The HTTP handler *)

(** C9: whatever exception the analysis ends with, a failure of the parser
    or of the backend alike, [get_summary] raises an [HTTPException] with
    status 500 whose detail is the string of that exception. *)
Theorem get_summary_failure_is_500
    (input_data : HRInterviewInput) (p p' : Process) (e : PyException) :
  analyze_interview (job_title input_data) (company_name input_data)
    (candidate_name input_data) (interview_qna_list input_data) p
  = (inl e, p') ->
  get_summary input_data p = (inl (mkHTTPException 500 (exc_str e)), p').
Proof.
  intros H. unfold get_summary. rewrite H. reflexivity.
Qed.

(** The handler raises nothing but a 500, and returns what the analysis
    returns. *)
Lemma get_summary_outcomes (input_data : HRInterviewInput) (p : Process) :
  match fst (get_summary input_data p) with
  | inl http_error =>
      status_code http_error = 500%Z
      /\ exists e,
           fst (analyze_interview (job_title input_data) (company_name input_data)
                  (candidate_name input_data) (interview_qna_list input_data) p)
           = inl e
           /\ detail http_error = exc_str e
  | inr result =>
      fst (analyze_interview (job_title input_data) (company_name input_data)
             (candidate_name input_data) (interview_qna_list input_data) p)
      = inr result
  end.
Proof.
  unfold get_summary.
  destruct (analyze_interview _ _ _ _ p) as [[e | result] p']; simpl.
  - split; [reflexivity |]. exists e. split; reflexivity.
  - reflexivity.
Qed.

(** ** The transcript and the format instructions *)

Lemma append_assoc (a b c : string) : (a ++ b) ++ c = a ++ b ++ c.
Proof. induction a as [| x a IH]; simpl; [| rewrite IH]; reflexivity. Qed.

Lemma py_repr_qna (item : QNA) :
  py_repr (PDict [(PStr "question", PStr (question item));
                  (PStr "answer", PStr (answer item))])
  = qna_unit item.
Proof.
  unfold qna_unit. cbn [py_repr map String.concat].
  change (PyStr.repr_str "question") with "'question'".
  change (PyStr.repr_str "answer") with "'answer'".
  rewrite !append_assoc. reflexivity.
Qed.

Lemma repr_quote_cases (s : string) :
  PyStr.repr_quote s = "'"%char \/ PyStr.repr_quote s = "034"%char.
Proof.
  unfold PyStr.repr_quote.
  destruct (PyStr.has_char "'" s && negb (PyStr.has_char "034" s)); auto.
Qed.

(** Reading back one character of a [repr] body. *)
Lemma unrepr_char (quote c : ascii) (rest : string) :
  quote = "'"%char \/ quote = "034"%char ->
  Unrepr.body quote (PyStr.repr_char quote c ++ rest)
  = Unrepr.push (Some c) (Unrepr.body quote rest).
Proof.
  intros [-> | ->];
    destruct c as [[] [] [] [] [] [] [] []]; reflexivity.
Qed.

Lemma unrepr_body (quote : ascii) (s rest : string) :
  quote = "'"%char \/ quote = "034"%char ->
  Unrepr.body quote (PyStr.flat_map_chars (PyStr.repr_char quote) s ++ String quote rest)
  = Some (s, rest).
Proof.
  intros Hq. induction s as [| c s IH].
  - simpl. destruct Hq as [-> | ->]; reflexivity.
  - cbn [PyStr.flat_map_chars]. rewrite append_assoc, unrepr_char by exact Hq.
    rewrite IH. reflexivity.
Qed.

(** [repr] can be read back: the string and what follows it. *)
Lemma unrepr_str (s rest : string) :
  Unrepr.str (PyStr.repr_str s ++ rest) = Some (s, rest).
Proof.
  unfold PyStr.repr_str.
  pose proof (repr_quote_cases s) as Hq.
  set (q := PyStr.repr_quote s) in *.
  cbn [String.append Unrepr.str].
  rewrite append_assoc. cbn [String.append].
  replace (Ascii.eqb q "'" || Ascii.eqb q "034") with true
    by (destruct Hq as [-> | ->]; reflexivity).
  apply unrepr_body. exact Hq.
Qed.

Lemma after_append (p rest : string) : Unrepr.after p (p ++ rest) = Some rest.
Proof.
  induction p as [| c p IH]; simpl.
  - destruct rest; reflexivity.
  - rewrite Ascii.eqb_refl. exact IH.
Qed.

(** The text of one pair can be read back: the pair and what follows it. *)
Lemma unrepr_unit (item : QNA) (rest : string) :
  Unrepr.unit (qna_unit item ++ rest) = Some (item, rest).
Proof.
  unfold Unrepr.unit, qna_unit.
  rewrite !append_assoc, after_append, unrepr_str, after_append, unrepr_str.
  rewrite after_append. destruct item; reflexivity.
Qed.

Lemma pair_read_back (x y : QNA) (s t : string) :
  Some (x, s) = Some (y, t) -> x = y /\ s = t.
Proof. intros H. inversion H. split; reflexivity. Qed.

Lemma transcript_tail_injective (a b : list QNA) :
  transcript_tail a = transcript_tail b -> a = b.
Proof.
  revert b. induction a as [| x a IH]; intros [| y b] H.
  - reflexivity.
  - discriminate H.
  - discriminate H.
  - cbn [transcript_tail] in H.
    apply (f_equal (Unrepr.after ", ")) in H. rewrite !after_append in H.
    apply (f_equal (fun rest => match rest with
                                | Some text => Unrepr.unit text
                                | None => None
                                end)) in H.
    rewrite !unrepr_unit in H. apply pair_read_back in H. destruct H as [-> Ht].
    f_equal. apply IH. exact Ht.
Qed.

Lemma concat_units (item : QNA) (rest : list QNA) :
  String.concat ", " (map qna_unit (item :: rest)) ++ "]"
  = qna_unit item ++ transcript_tail rest.
Proof.
  revert item. induction rest as [| y rest IH]; intros item.
  - reflexivity.
  - change (String.concat ", " (map qna_unit (item :: y :: rest)))
      with (qna_unit item ++ ", " ++ String.concat ", " (map qna_unit (y :: rest))).
    rewrite !append_assoc, IH. reflexivity.
Qed.

(** Two lists of pairs with the same transcript are the same list. *)
Lemma transcript_injective (a b : list QNA) :
  "[" ++ String.concat ", " (map qna_unit a) ++ "]"
  = "[" ++ String.concat ", " (map qna_unit b) ++ "]" ->
  a = b.
Proof.
  intros H.
  apply (f_equal (Unrepr.after "[")) in H. rewrite !after_append in H.
  destruct a as [| x a], b as [| y b].
  - reflexivity.
  - rewrite concat_units in H. discriminate H.
  - rewrite concat_units in H. discriminate H.
  - rewrite !concat_units in H.
    apply (f_equal (fun rest => match rest with
                                | Some text => Unrepr.unit text
                                | None => None
                                end)) in H.
    rewrite !unrepr_unit in H. apply pair_read_back in H. destruct H as [-> Ht].
    f_equal. apply transcript_tail_injective. exact Ht.
Qed.

(** C1, as the code has it: the transcript put into the prompt is the text
    Python prints for the list of the pairs, an opening bracket, one dict
    of a question and an answer per pair, separated by a comma and a space,
    and a closing bracket; the dicts stand in the order of the input, and
    two inputs with the same transcript have the same pairs in the same
    order, so that no pair is moved, merged or dropped; for the single pair
    Q1, A1 the text has Q1 before A1. *)
Theorem transcript_is_python_list_text (input_data : HRInterviewInput) :
  py_str (interview_qna_list input_data)
  = "[" ++ String.concat ", " (map qna_unit (interview_qna input_data)) ++ "]"
  /\ (forall n item, nth_error (interview_qna input_data) n = Some item ->
        nth_error (map qna_unit (interview_qna input_data)) n = Some (qna_unit item))
  /\ (forall other,
        py_str (interview_qna_list other) = py_str (interview_qna_list input_data) ->
        interview_qna other = interview_qna input_data)
  /\ (py_str (interview_qna_list Scenario.Q1A1) = "[{'question': 'Q1', 'answer': 'A1'}]"
      /\ PyStr.find "Q1" (py_str (interview_qna_list Scenario.Q1A1)) = Some 15%nat
      /\ PyStr.find "A1" (py_str (interview_qna_list Scenario.Q1A1)) = Some 31%nat).
Proof.
  assert (Htext : forall input,
             py_str (interview_qna_list input)
             = "[" ++ String.concat ", " (map qna_unit (interview_qna input)) ++ "]").
  { intros input. unfold interview_qna_list. cbn [py_str py_repr]. rewrite map_map.
    rewrite (map_ext _ qna_unit py_repr_qna). reflexivity. }
  split; [apply Htext | split; [| split]].
  - intros n item H. apply map_nth_error. exact H.
  - intros other H. rewrite !Htext in H. apply transcript_injective. exact H.
  - repeat split; reflexivity.
Qed.

(** C6: the fields of [QNASummary] are declared in the order of the data
    model, and the format instructions name them in that order: the labels
    of the eight properties stand at increasing offsets, and the list of
    required fields is the same list. *)
Theorem format_instructions_field_order :
  QNASummary_field_names = spec_field_order
  /\ (exists offsets,
        map (fun field => PyStr.find (schema_label field) QNASummary_format_instructions)
          spec_field_order
        = map Some offsets
        /\ increasing offsets = true)
  /\ PyStr.contains
       (PyStr.dq ++ "required" ++ PyStr.dq ++ ": "
        ++ Json.dumps (JArray (map JString spec_field_order)))
       QNASummary_format_instructions = true.
Proof.
  split; [reflexivity | split].
  - exists [1258; 1343; 1546; 1781; 2011; 2257; 2491; 2790]%nat.
    split; vm_compute; reflexivity.
  - vm_compute. reflexivity.
Qed.

(** ** More on the analyzer and the handler *)

Lemma init_parser
    (model_name : string) (max_output_tokens : Z) (temperature : float)
    (self : HRInterviewAnalyzer) :
  HRInterviewAnalyzer_init model_name max_output_tokens temperature = inr self ->
  parser self = QNASummary_parser
  /\ llm self = mkVertexAI model_name max_output_tokens temperature.
Proof.
  rewrite HRInterviewAnalyzer_init_returns. intros [= <-]. split; reflexivity.
Qed.

(** The response of the handler on an analyzer built by the constructor. *)
Lemma get_summary_response
    (model_name : string) (max_output_tokens : Z) (temperature : float)
    (self : HRInterviewAnalyzer) (input_data : HRInterviewInput)
    (sent : list LLMCall) :
  HRInterviewAnalyzer_init model_name max_output_tokens temperature = inr self ->
  get_summary input_data (mkProcess self sent)
  = (match backend sent (request_for (llm self) input_data) with
     | inl e => inl (mkHTTPException 500 (exc_str e))
     | inr text =>
         match parse QNASummary_parser text with
         | inl e => inl (mkHTTPException 500 (exc_str e))
         | inr result => inr result
         end
     end,
     mkProcess self (sent ++ [request_for (llm self) input_data])).
Proof.
  intros Hinit. unfold get_summary.
  rewrite analyze_interview_run with (1 := Hinit).
  destruct (init_parser _ _ _ _ Hinit) as [-> _].
  fold (request_for (llm self) input_data).
  destruct (backend sent _) as [e | text]; [reflexivity |].
  destruct (parse QNASummary_parser text); reflexivity.
Qed.

(** X1: when the backend answers and the parser raises, the call of
    [analyze_interview] ends with the exception of the parser after the one
    request it made: the backend is not asked again.  The exception is an
    [OutputParserException] that carries the completion, or one the library
    does not convert: what [json.loads] raised, or the [TypeError] of the
    constructor of the model. *)
Theorem parse_failure_leaves_analyze_interview
    (model_name : string) (max_output_tokens : Z) (temperature : float)
    (self : HRInterviewAnalyzer)
    (job_title company_name candidate_name : string) (interview_qna : PyVal)
    (sent : list LLMCall) (text : string) (e : PyException) :
  HRInterviewAnalyzer_init model_name max_output_tokens temperature = inr self ->
  backend sent
    (mkCall (llm self) (prompt_for job_title company_name candidate_name interview_qna))
  = inr text ->
  parse (parser self) text = inl e ->
  analyze_interview job_title company_name candidate_name interview_qna
    (mkProcess self sent)
  = (inl e,
     mkProcess self
       (sent ++ [mkCall (llm self)
                   (prompt_for job_title company_name candidate_name interview_qna)]))
  /\ ((exc_class e = "OutputParserException" /\ exc_llm_output e = Some text)
      \/ json_loads (LangChain.json_str text) = inl e
      \/ e = Pydantic.init_type_error).
Proof.
  intros Hinit Hanswer Hparse. split.
  - rewrite analyze_interview_run with (1 := Hinit). rewrite Hanswer, Hparse.
    reflexivity.
  - destruct (parse_failure_cases _ _ _ Hparse)
      as [[got ->] | [[Hraw _] | [members [_ [_ ->]]]]].
    + left. split; reflexivity.
    + right. left. exact Hraw.
    + right. right. reflexivity.
Qed.

(** X2: when the completion of the backend decodes to an object without a
    member named [__pydantic_self__] in which each of the eight fields is
    labeled with a string, wherever the label stands and whatever else the
    object holds, the handler returns the dict of the eight fields in
    declaration order, each with its string, after one request. *)
Theorem get_summary_returns_labeled_fields
    (model_name : string) (max_output_tokens : Z) (temperature : float)
    (self : HRInterviewAnalyzer) (input_data : HRInterviewInput)
    (sent : list LLMCall) (text : string)
    (members : list (string * json)) (content : string -> string) :
  HRInterviewAnalyzer_init model_name max_output_tokens temperature = inr self ->
  backend sent (request_for (llm self) input_data) = inr text ->
  json_loads (LangChain.json_str text) = inr members ->
  Json.get "__pydantic_self__" members = None ->
  (forall field, In field QNASummary_field_names ->
     Json.get field members = Some (JString (content field))) ->
  get_summary input_data (mkProcess self sent)
  = (inr (map (fun field => (field, content field)) QNASummary_field_names),
     mkProcess self (sent ++ [request_for (llm self) input_data])).
Proof.
  intros Hinit Hanswer Hloads Hself Hfields.
  rewrite get_summary_response with (1 := Hinit). rewrite Hanswer.
  rewrite (parse_labeled_members _ _ _ Hloads Hself Hfields). reflexivity.
Qed.

(** X3: when [json.loads] refuses the JSON candidate of the completion with
    a [JSONDecodeError], or the decoded object has no member named
    [__pydantic_self__] and lacks one of the eight fields, the detail of the
    500 the handler raises quotes the whole completion: the client reads the
    raw text of the model. *)
Theorem get_summary_detail_quotes_completion
    (model_name : string) (max_output_tokens : Z) (temperature : float)
    (self : HRInterviewAnalyzer) (input_data : HRInterviewInput)
    (sent : list LLMCall) (text : string) :
  HRInterviewAnalyzer_init model_name max_output_tokens temperature = inr self ->
  backend sent (request_for (llm self) input_data) = inr text ->
  ((exists e, json_loads (LangChain.json_str text) = inl e
              /\ exc_class e = "JSONDecodeError")
   \/ (exists members field,
         json_loads (LangChain.json_str text) = inr members
         /\ Json.get "__pydantic_self__" members = None
         /\ In field QNASummary_field_names
         /\ Json.get field members = None)) ->
  exists got,
    get_summary input_data (mkProcess self sent)
    = (inl (mkHTTPException 500
              ("Failed to parse QNASummary from completion " ++ text
               ++ ". Got: " ++ got)),
       mkProcess self (sent ++ [request_for (llm self) input_data])).
Proof.
  intros Hinit Hanswer Hcause.
  assert (Hparse : exists got,
             parse QNASummary_parser text
             = inl (LangChain.OutputParserException
                      (LangChain.failed_to_parse "QNASummary" text got) text)).
  { destruct Hcause as [[e [H Hclass]] | [members [field [H [Hself [Hin Hget]]]]]].
    - unfold parse. rewrite H.
      rewrite parse_except_caught by (left; exact Hclass).
      eexists. reflexivity.
    - unfold QNASummary_field_names in Hin. apply in_map_iff in Hin.
      destruct Hin as [f [<- Hin]].
      destruct (parse_obj_missing QNASummary members f Hself Hin Hget) as [errors He].
      unfold parse. rewrite H.
      change (LangChain.pydantic_object QNASummary_parser) with QNASummary.
      rewrite He, parse_except_caught by (right; reflexivity).
      eexists. reflexivity. }
  destruct Hparse as [got Hparse]. exists got.
  rewrite get_summary_response with (1 := Hinit).
  rewrite Hanswer, Hparse. reflexivity.
Qed.

(** X4: whatever the backend does, the handler makes one request and either
    raises a 500 or returns a dict with all eight fields, in declaration
    order. *)
Theorem get_summary_complete_or_500
    (model_name : string) (max_output_tokens : Z) (temperature : float) :
  exists self,
    HRInterviewAnalyzer_init model_name max_output_tokens temperature = inr self
    /\ forall input_data sent,
         snd (get_summary input_data (mkProcess self sent))
         = mkProcess self (sent ++ [request_for (llm self) input_data])
         /\ match fst (get_summary input_data (mkProcess self sent)) with
            | inl http_error => status_code http_error = 500%Z
            | inr result => map fst result = QNASummary_field_names
            end.
Proof.
  eexists. split; [apply HRInterviewAnalyzer_init_returns |].
  intros input_data sent.
  rewrite get_summary_response
    with (1 := HRInterviewAnalyzer_init_returns model_name max_output_tokens temperature).
  split; [reflexivity |]. cbn [fst].
  destruct (backend sent _) as [e | text]; [reflexivity |].
  destruct (parse QNASummary_parser text) as [e | result] eqn:E; [reflexivity |].
  exact (parse_instance_complete _ _ E).
Qed.

(** X5: an interview without a pair is analyzed like any other: the
    transcript is the text of the empty list and the backend is asked
    once. *)
Theorem empty_interview_is_analyzed
    (model_name : string) (max_output_tokens : Z) (temperature : float) :
  exists self,
    HRInterviewAnalyzer_init model_name max_output_tokens temperature = inr self
    /\ forall candidate job company sent,
         py_str (interview_qna_list (mkInput candidate job company [])) = "[]"
         /\ snd (get_summary (mkInput candidate job company []) (mkProcess self sent))
            = mkProcess self
                (sent ++ [mkCall (llm self)
                            (substituted_prompt job company candidate
                               QNASummary_format_instructions "[]")]).
Proof.
  eexists. split; [apply HRInterviewAnalyzer_init_returns |].
  intros candidate job company sent. split; [reflexivity |].
  rewrite get_summary_run
    with (1 := HRInterviewAnalyzer_init_returns model_name max_output_tokens temperature).
  reflexivity.
Qed.

(** X6: the configuration given to the constructor, whatever it is, is the
    one of every request, and it has no part in the prompt: two analyzers
    with different configurations send the same prompts for the same
    requests. *)
Theorem configuration_reaches_backend_only
    (model_name : string) (max_output_tokens : Z) (temperature : float)
    (model_name' : string) (max_output_tokens' : Z) (temperature' : float) :
  exists self self',
    HRInterviewAnalyzer_init model_name max_output_tokens temperature = inr self
    /\ HRInterviewAnalyzer_init model_name' max_output_tokens' temperature' = inr self'
    /\ forall inputs,
         map call_llm (outbound (snd (serve inputs (mkProcess self []))))
         = repeat (mkVertexAI model_name max_output_tokens temperature)
             (List.length inputs)
         /\ map call_prompt (outbound (snd (serve inputs (mkProcess self []))))
            = map call_prompt (outbound (snd (serve inputs (mkProcess self' [])))).
Proof.
  do 2 eexists. split; [apply HRInterviewAnalyzer_init_returns |].
  split; [apply HRInterviewAnalyzer_init_returns |].
  intros inputs.
  rewrite !serve_run with (1 := HRInterviewAnalyzer_init_returns _ _ _).
  cbn [outbound app llm]. rewrite !map_map. cbn [call_llm call_prompt request_for].
  split; [| reflexivity].
  induction inputs as [| input_data rest IH]; [reflexivity |].
  cbn [map repeat List.length]. rewrite IH. reflexivity.
Qed.

(** X7: with a backend whose answer to a request does not depend on the
    requests made before, the response to each request is the one the
    handler gives to that request alone: a request that failed or succeeded
    before changes nothing for the next one. *)
Theorem responses_do_not_depend_on_history
    (model_name : string) (max_output_tokens : Z) (temperature : float)
    (self : HRInterviewAnalyzer) (inputs : list HRInterviewInput)
    (sent : list LLMCall) :
  HRInterviewAnalyzer_init model_name max_output_tokens temperature = inr self ->
  (forall history history' call, backend history call = backend history' call) ->
  fst (serve inputs (mkProcess self sent))
  = map (fun input_data => fst (get_summary input_data (mkProcess self []))) inputs.
Proof.
  intros Hinit Hstateless. revert sent.
  induction inputs as [| input_data rest IH]; intros sent; [reflexivity |].
  cbn [serve map].
  rewrite !get_summary_response with (1 := Hinit).
  rewrite (Hstateless sent [] (request_for (llm self) input_data)).
  specialize (IH (sent ++ [request_for (llm self) input_data])%list).
  destruct (serve rest _) as [responses p'']. cbn [fst] in *.
  rewrite IH. reflexivity.
Qed.

(** ** More on the transcript *)

Lemma transcript_text (input_data : HRInterviewInput) :
  py_str (interview_qna_list input_data)
  = "[" ++ String.concat ", " (map qna_unit (interview_qna input_data)) ++ "]".
Proof.
  unfold interview_qna_list. cbn [py_str py_repr]. rewrite map_map.
  rewrite (map_ext _ qna_unit py_repr_qna). reflexivity.
Qed.

Lemma str_isprintable_append (a b : string) :
  str_isprintable (a ++ b) = str_isprintable a && str_isprintable b.
Proof.
  induction a as [| c a IH]; simpl; [reflexivity |].
  rewrite IH, andb_assoc. reflexivity.
Qed.

(** Whatever the character, what [repr] writes for it is printable. *)
Lemma repr_char_printable (quote c : ascii) :
  quote = "'"%char \/ quote = "034"%char ->
  str_isprintable (PyStr.repr_char quote c) = true.
Proof.
  intros [-> | ->]; destruct c as [[] [] [] [] [] [] [] []]; reflexivity.
Qed.

Lemma repr_body_printable (quote : ascii) (s : string) :
  quote = "'"%char \/ quote = "034"%char ->
  str_isprintable (PyStr.flat_map_chars (PyStr.repr_char quote) s) = true.
Proof.
  intros Hq. induction s as [| c s IH]; [reflexivity |].
  cbn [PyStr.flat_map_chars]. rewrite str_isprintable_append, IH.
  rewrite repr_char_printable by exact Hq. reflexivity.
Qed.

Lemma repr_str_printable (s : string) : str_isprintable (PyStr.repr_str s) = true.
Proof.
  unfold PyStr.repr_str. pose proof (repr_quote_cases s) as Hq.
  set (q := PyStr.repr_quote s) in *.
  cbn [str_isprintable]. rewrite str_isprintable_append.
  rewrite repr_body_printable by exact Hq.
  destruct Hq as [-> | ->]; reflexivity.
Qed.

Lemma qna_unit_printable (item : QNA) : str_isprintable (qna_unit item) = true.
Proof.
  unfold qna_unit. rewrite !str_isprintable_append, !repr_str_printable. reflexivity.
Qed.

Lemma concat_printable (sep : string) (parts : list string) :
  str_isprintable sep = true ->
  Forall (fun part => str_isprintable part = true) parts ->
  str_isprintable (String.concat sep parts) = true.
Proof.
  intros Hsep Hparts. induction Hparts as [| part rest Hpart Hrest IH].
  - reflexivity.
  - destruct rest as [| next rest'].
    + exact Hpart.
    + change (String.concat sep (part :: next :: rest'))
        with (part ++ sep ++ String.concat sep (next :: rest')).
      rewrite !str_isprintable_append, Hpart, Hsep, IH. reflexivity.
Qed.

Lemma unprintable_absent (c : ascii) (s : string) :
  PyStr.isprintable c = false -> str_isprintable s = true -> PyStr.has_char c s = false.
Proof.
  intros Hc. induction s as [| d s IH]; simpl; intros H; [reflexivity |].
  apply andb_true_iff in H. destruct H as [Hd Hs].
  rewrite (IH Hs), orb_false_r.
  destruct (Ascii.eqb c d) eqn:E; [| reflexivity].
  apply Ascii.eqb_eq in E. subst d. rewrite Hd in Hc. discriminate Hc.
Qed.

(** X8: whatever the questions and the answers hold, the transcript is made
    of printable characters only: a line break, a tab or a control
    character of an answer reaches the prompt as its escape, and the
    transcript is one line. *)
Theorem transcript_is_printable (input_data : HRInterviewInput) :
  str_isprintable (py_str (interview_qna_list input_data)) = true
  /\ PyStr.has_char "010" (py_str (interview_qna_list input_data)) = false
  /\ PyStr.has_char "013" (py_str (interview_qna_list input_data)) = false
  /\ PyStr.has_char "009" (py_str (interview_qna_list input_data)) = false.
Proof.
  assert (H : str_isprintable (py_str (interview_qna_list input_data)) = true).
  { rewrite transcript_text. cbn [String.append str_isprintable].
    rewrite str_isprintable_append, concat_printable; [reflexivity | reflexivity |].
    apply Forall_forall. intros part Hin. apply in_map_iff in Hin.
    destruct Hin as [item [<- _]]. apply qna_unit_printable. }
  split; [exact H |].
  repeat split; apply unprintable_absent; (reflexivity || exact H).
Qed.

(** ** More on the parser *)

Lemma validate_str_scalar (loc : string) (v : json) (s : string) :
  Pydantic.validate_str loc v = inr s <-> scalar_text v = Some s.
Proof.
  destruct v as [| [|] | text | str | items | members]; simpl;
    split; intros H; try discriminate H; injection H as <-; reflexivity.
Qed.

(** Validation ends without an error exactly when every field takes its text
    from a member. *)
Lemma validate_model_success
    (members : list (string * json)) (fields : list Pydantic.ModelField)
    (values : list (string * string)) :
  Pydantic.validate_model fields members = (values, [])
  <-> Forall2 (field_from members) (map Pydantic.field_name fields) values.
Proof.
  revert values. induction fields as [| f rest IH]; intros values; simpl.
  - split; intros H.
    + injection H as <-. constructor.
    + inversion H. reflexivity.
  - destruct (Pydantic.validate_model rest members) as [vs es].
    split; intros H.
    + destruct (Json.get (Pydantic.field_name f) members) as [v |] eqn:Hget;
        [| discriminate H].
      destruct (Pydantic.validate_str (Pydantic.field_name f) v) as [err | s] eqn:Hv;
        [discriminate H |].
      injection H as <- ->. constructor.
      * split; [reflexivity |]. exists v. split; [exact Hget |].
        apply (validate_str_scalar (Pydantic.field_name f)). exact Hv.
      * apply IH. reflexivity.
    + inversion H as [| name [k s] names vs' [Hk [v [Hget Hs]]] Hrest]; subst.
      simpl in Hk, Hs. subst k.
      apply IH in Hrest. injection Hrest as <- <-.
      rewrite Hget.
      apply (validate_str_scalar (Pydantic.field_name f)) in Hs. rewrite Hs.
      reflexivity.
Qed.

(** X9: for a decoded object without a member named [__pydantic_self__],
    [parse] returns an instance exactly when the object labels every one of
    the eight fields with a string, a number or a boolean; the instance then
    holds, field by field in declaration order, the string as it is or the
    text Python prints for the number or the boolean, and a field labeled
    with [null], an array or an object, or not labeled, makes [parse]
    fail. *)
Theorem parse_returns_iff_scalar_fields
    (text : string) (members : list (string * json))
    (instance : list (string * string)) :
  json_loads (LangChain.json_str text) = inr members ->
  Json.get "__pydantic_self__" members = None ->
  (parse QNASummary_parser text = inr instance
   <-> Forall2 (field_from members) QNASummary_field_names instance).
Proof.
  intros Hloads Hself. unfold parse. rewrite Hloads.
  change (LangChain.pydantic_object QNASummary_parser) with QNASummary.
  unfold Pydantic.parse_obj, QNASummary_field_names. rewrite Hself.
  rewrite <- validate_model_success.
  destruct (Pydantic.validate_model (Pydantic.class_fields QNASummary) members)
    as [values [| err errors]].
  - split; intros H; injection H as <-; reflexivity.
  - split; intros H; discriminate H.
Qed.

(** ** More on the JSON candidate *)

Lemma isspace_not_brace (c : ascii) :
  PyStr.isspace c = true ->
  Ascii.eqb c "{" = false /\ Ascii.eqb c "}" = false.
Proof.
  destruct c as [[] [] [] [] [] [] [] []]; intros H;
    try discriminate H; split; reflexivity.
Qed.

Lemma from_first_open_lstrip (s : string) :
  LangChain.from_first_open (PyStr.lstrip s) = LangChain.from_first_open s.
Proof.
  induction s as [| c r IH]; [reflexivity |].
  cbn [PyStr.lstrip]. destruct (PyStr.isspace c) eqn:E; [| reflexivity].
  rewrite IH. cbn [LangChain.from_first_open].
  destruct (isspace_not_brace c E) as [-> _]. reflexivity.
Qed.

Lemma rstrip_cons (c : ascii) (r : string) :
  PyStr.rstrip (String c r)
  = if PyStr.isspace c && String.eqb (PyStr.rstrip r) ""
    then "" else String c (PyStr.rstrip r).
Proof.
  cbn [PyStr.rstrip]. destruct (PyStr.rstrip r) as [| d r'].
  - cbn [String.eqb]. rewrite andb_true_r. reflexivity.
  - cbn [String.eqb]. rewrite andb_false_r. reflexivity.
Qed.

Lemma upto_last_close_rstrip (s : string) :
  LangChain.upto_last_close (PyStr.rstrip s) = LangChain.upto_last_close s.
Proof.
  induction s as [| c r IH]; [reflexivity |].
  rewrite rstrip_cons.
  destruct (PyStr.isspace c && String.eqb (PyStr.rstrip r) "") eqn:E.
  - apply andb_true_iff in E. destruct E as [Hc Hr].
    apply String.eqb_eq in Hr. rewrite Hr in IH.
    cbn [LangChain.upto_last_close] in *. rewrite <- IH.
    destruct (isspace_not_brace c Hc) as [_ ->]. reflexivity.
  - cbn [LangChain.upto_last_close]. rewrite IH. reflexivity.
Qed.

Lemma search_braces_rstrip (s : string) :
  LangChain.search_braces (PyStr.rstrip s) = LangChain.search_braces s.
Proof.
  induction s as [| c r IH]; [reflexivity |].
  rewrite rstrip_cons.
  destruct (PyStr.isspace c && String.eqb (PyStr.rstrip r) "") eqn:E.
  - apply andb_true_iff in E. destruct E as [Hc Hr].
    apply String.eqb_eq in Hr. rewrite Hr in IH.
    unfold LangChain.search_braces in *. cbn [LangChain.from_first_open] in *.
    destruct (isspace_not_brace c Hc) as [-> _]. exact IH.
  - unfold LangChain.search_braces in *. cbn [LangChain.from_first_open].
    destruct (Ascii.eqb c "{").
    + cbn [LangChain.upto_last_close]. rewrite upto_last_close_rstrip. reflexivity.
    + exact IH.
Qed.

(** The candidate is the same with and without the white space around the
    text. *)
Lemma search_braces_strip (s : string) :
  LangChain.search_braces (PyStr.strip s) = LangChain.search_braces s.
Proof.
  unfold PyStr.strip. rewrite search_braces_rstrip.
  unfold LangChain.search_braces. rewrite from_first_open_lstrip. reflexivity.
Qed.

Lemma from_first_open_skip (pre rest : string) :
  PyStr.has_char "{" pre = false ->
  LangChain.from_first_open (pre ++ String "{" rest) = Some (String "{" rest).
Proof.
  induction pre as [| c pre IH]; intros H.
  - reflexivity.
  - cbn [PyStr.has_char] in H. apply orb_false_iff in H. destruct H as [Hc Hpre].
    cbn [String.append LangChain.from_first_open].
    rewrite Ascii.eqb_sym, Hc. apply IH. exact Hpre.
Qed.

Lemma upto_last_close_none (post : string) :
  PyStr.has_char "}" post = false -> LangChain.upto_last_close post = None.
Proof.
  induction post as [| c post IH]; intros H; [reflexivity |].
  cbn [PyStr.has_char] in H. apply orb_false_iff in H. destruct H as [Hc Hpost].
  cbn [LangChain.upto_last_close]. rewrite (IH Hpost), Ascii.eqb_sym, Hc. reflexivity.
Qed.

Lemma upto_last_close_keep (a post : string) :
  PyStr.has_char "}" post = false ->
  LangChain.upto_last_close (a ++ String "}" post) = Some (a ++ "}").
Proof.
  intros H. induction a as [| c a IH].
  - cbn [String.append LangChain.upto_last_close].
    rewrite (upto_last_close_none post H). reflexivity.
  - cbn [String.append LangChain.upto_last_close]. rewrite IH. reflexivity.
Qed.

(** X10: what the model writes around the object does not count: when no
    opening brace stands before the object and no closing brace after it,
    the JSON candidate of the completion is the object alone. *)
Theorem json_str_ignores_surrounding_text (pre body post : string) :
  PyStr.has_char "{" pre = false ->
  PyStr.has_char "}" post = false ->
  LangChain.json_str (pre ++ "{" ++ body ++ "}" ++ post) = "{" ++ body ++ "}".
Proof.
  intros Hpre Hpost. unfold LangChain.json_str.
  rewrite search_braces_strip. unfold LangChain.search_braces.
  cbn [String.append]. rewrite from_first_open_skip by exact Hpre.
  change (String "{" (body ++ String "}" post))
    with (String "{" body ++ String "}" post).
  rewrite upto_last_close_keep by exact Hpost.
  cbn [String.append]. reflexivity.
Qed.

(** ** The decoder reads the text of an object of strings *)

Lemma dumps_object (members : list (string * json)) :
  Json.dumps (JObject members)
  = "{" ++ String.concat ", " (map member_text members) ++ "}".
Proof.
  cbn [Json.dumps]. do 3 f_equal. apply map_ext. intros [k v]. reflexivity.
Qed.

Lemma string_body_char (c : ascii) (rest : string) :
  JsonText.string_body (Json.escape_char c ++ rest)
  = JsonText.push (Some c) (JsonText.string_body rest).
Proof.
  destruct c as [[] [] [] [] [] [] [] []]; reflexivity.
Qed.

(** A string written by [json.dumps] is read back, with what follows its
    closing quote. *)
Lemma string_body_dumps (s rest : string) :
  JsonText.string_body (PyStr.flat_map_chars Json.escape_char s ++ String "034" rest)
  = Some (s, rest).
Proof.
  induction s as [| c s IH]; cbn [PyStr.flat_map_chars].
  - reflexivity.
  - rewrite append_assoc, string_body_char, IH. reflexivity.
Qed.

Lemma members_unfold (fuel : nat) (s : string) :
  JsonText.members (S fuel) s
  = match JsonText.skip_ws s with
    | String "034" r =>
        match JsonText.string_body r with
        | Some (key, after_key) =>
            match JsonText.skip_ws after_key with
            | String ":" after_colon =>
                match JsonText.value fuel after_colon with
                | Some (v, after_value) =>
                    match JsonText.skip_ws after_value with
                    | String "}" rest => Some ([(key, v)], rest)
                    | String "," more =>
                        match JsonText.members fuel more with
                        | Some (ms, rest) => Some ((key, v) :: ms, rest)
                        | None => None
                        end
                    | _ => None
                    end
                | None => None
                end
            | _ => None
            end
        | None => None
        end
    | _ => None
    end.
Proof. reflexivity. Qed.

Lemma skip_ws_blank (ws rest : string) :
  blank ws = true -> JsonText.skip_ws (ws ++ rest) = JsonText.skip_ws rest.
Proof.
  induction ws as [| c ws IH]; intros H; [reflexivity |].
  cbn [blank] in H. apply andb_true_iff in H. destruct H as [Hc Hws].
  cbn [String.append JsonText.skip_ws]. rewrite Hc. apply IH. exact Hws.
Qed.

Lemma skip_ws_idempotent (s : string) :
  JsonText.skip_ws (JsonText.skip_ws s) = JsonText.skip_ws s.
Proof.
  induction s as [| c s IH]; [reflexivity |].
  cbn [JsonText.skip_ws]. destruct (JsonText.is_ws c) eqn:E; [exact IH |].
  cbn [JsonText.skip_ws]. rewrite E. reflexivity.
Qed.

Lemma members_skip_ws (fuel : nat) (s : string) :
  JsonText.members fuel (JsonText.skip_ws s) = JsonText.members fuel s.
Proof.
  destruct fuel; [reflexivity |].
  rewrite !members_unfold, skip_ws_idempotent. reflexivity.
Qed.

Lemma dumps_str_quoted (s rest : string) :
  Json.dumps_str s ++ rest
  = String "034" (PyStr.flat_map_chars Json.escape_char s ++ String "034" rest).
Proof.
  unfold Json.dumps_str, PyStr.dq. rewrite !append_assoc. reflexivity.
Qed.

(** A string as [json.dumps] writes it, after any white space, is read
    back. *)
Lemma value_string (fuel : nat) (ws v rest : string) :
  blank ws = true ->
  JsonText.value (S fuel) (ws ++ Json.dumps_str v ++ rest)
  = Some (JString v, rest).
Proof.
  intros Hws. cbn [JsonText.value].
  rewrite skip_ws_blank by exact Hws. rewrite dumps_str_quoted.
  cbn [JsonText.skip_ws JsonText.is_ws PyStr.has_char Ascii.eqb Bool.eqb orb].
  rewrite string_body_dumps. reflexivity.
Qed.

(** One member whose value is a string is read back from its text; what
    follows decides whether it is the last one. *)
Lemma member_read (sp : Spacing) (k v : string) (fuel : nat) (rest : string) :
  blank_spacing sp = true ->
  JsonText.members (S (S fuel)) (spaced_member (sp, (k, JString v)) ++ rest)
  = match JsonText.skip_ws rest with
    | String "}" after => Some ([(k, JString v)], after)
    | String "," more =>
        match JsonText.members (S fuel) more with
        | Some (ms, after) => Some ((k, JString v) :: ms, after)
        | None => None
        end
    | _ => None
    end.
Proof.
  unfold blank_spacing. rewrite !andb_true_iff. intros [[[Hk Hbc] Hac] Hv].
  rewrite members_unfold.
  unfold spaced_member. cbn [fst snd Json.dumps]. rewrite !append_assoc.
  rewrite skip_ws_blank by exact Hk. rewrite dumps_str_quoted.
  cbn [JsonText.skip_ws JsonText.is_ws PyStr.has_char Ascii.eqb Bool.eqb orb].
  rewrite string_body_dumps.
  rewrite skip_ws_blank by exact Hbc. cbn [String.append].
  cbn [JsonText.skip_ws JsonText.is_ws PyStr.has_char Ascii.eqb Bool.eqb orb].
  rewrite value_string by exact Hac.
  rewrite skip_ws_blank by exact Hv. reflexivity.
Qed.

Lemma string_length_append (a b : string) :
  String.length (a ++ b) = (String.length a + String.length b)%nat.
Proof. induction a as [| c a IH]; simpl; [| rewrite IH]; reflexivity. Qed.

Lemma spaced_member_length (m : Spacing * (string * json)) :
  (1 <= String.length (spaced_member m))%nat.
Proof.
  unfold spaced_member. rewrite !string_length_append.
  cbn [String.length]. lia.
Qed.

(** The text of the members is at least as long as they are many: the fuel
    [loads] gives the decoder is enough for them. *)
Lemma concat_members_length (ms : list (Spacing * (string * json))) :
  (List.length ms <= String.length (String.concat "," (map spaced_member ms)))%nat.
Proof.
  induction ms as [| m ms IH]; [apply Nat.le_refl |].
  pose proof (spaced_member_length m) as Hm.
  destruct ms as [| m2 ms].
  - cbn [map String.concat List.length]. lia.
  - change (String.concat "," (map spaced_member (m :: m2 :: ms)))
      with (spaced_member m ++ ","
            ++ String.concat "," (map spaced_member (m2 :: ms))).
    rewrite !string_length_append. cbn [String.length List.length] in *. lia.
Qed.

(** The members of an object of strings are read back from their text, up
    to the closing brace. *)
Lemma members_object_text (ms : list (Spacing * (string * json))) :
  ms <> [] ->
  Forall (fun m => blank_spacing (fst m) = true /\ exists s, snd (snd m) = JString s) ms ->
  forall fuel rest,
    (List.length ms < fuel)%nat ->
    JsonText.members fuel
      (String.concat "," (map spaced_member ms) ++ String "}" rest)
    = Some (map snd ms, rest).
Proof.
  intros Hne Hall. induction Hall as [| [sp [k x]] ms [Hsp [v Hv]] Hrest IH];
    [contradiction Hne; reflexivity |].
  cbn [fst snd] in Hsp, Hv. subst x. intros fuel rest Hfuel.
  destruct fuel as [| [| fuel]]; cbn [List.length] in Hfuel; [lia | lia |].
  destruct ms as [| m2 ms].
  - cbn [map String.concat]. rewrite member_read by exact Hsp. reflexivity.
  - change (String.concat "," (map spaced_member ((sp, (k, JString v)) :: m2 :: ms)))
      with (spaced_member (sp, (k, JString v)) ++ ","
            ++ String.concat "," (map spaced_member (m2 :: ms))).
    rewrite !append_assoc, member_read by exact Hsp. cbn [String.append].
    cbn [JsonText.skip_ws JsonText.is_ws PyStr.has_char Ascii.eqb Bool.eqb orb].
    rewrite IH; [reflexivity | discriminate | cbn [List.length] in *; lia].
Qed.

Lemma skip_ws_members_text (m : Spacing * (string * json))
    (ms : list (Spacing * (string * json))) (rest : string) :
  blank (before_key (fst m)) = true ->
  exists r,
    JsonText.skip_ws (String.concat "," (map spaced_member (m :: ms)) ++ rest)
    = String "034" r.
Proof.
  intros Hk.
  assert (H : exists tail,
             String.concat "," (map spaced_member (m :: ms)) ++ rest
             = before_key (fst m) ++ Json.dumps_str (fst (snd m)) ++ tail).
  { destruct ms as [| m2 ms]; cbn [map String.concat]; unfold spaced_member at 1;
      rewrite !append_assoc; eexists; reflexivity. }
  destruct H as [tail ->].
  rewrite skip_ws_blank by exact Hk. rewrite dumps_str_quoted.
  eexists. reflexivity.
Qed.

Lemma value_object (fuel : nat) (body r : string) :
  JsonText.skip_ws body = String "034" r ->
  JsonText.value (S fuel) (String "{" body)
  = match JsonText.members fuel body with
    | Some (ms, after) => Some (JObject ms, after)
    | None => None
    end.
Proof.
  intros H. cbn [JsonText.value].
  cbn [JsonText.skip_ws JsonText.is_ws PyStr.has_char Ascii.eqb Bool.eqb orb].
  rewrite <- (members_skip_ws fuel body), H. reflexivity.
Qed.

(** The decoder reads an object of strings back from its text, whatever
    white space stands around its members. *)
Lemma loads_object_text (ms : list (Spacing * (string * json))) :
  ms <> [] ->
  Forall (fun m => blank_spacing (fst m) = true /\ exists s, snd (snd m) = JString s) ms ->
  JsonText.loads (object_text ms) = inr (map snd ms).
Proof.
  intros Hne Hall. unfold JsonText.loads, JsonText.object, object_text.
  destruct ms as [| m ms]; [contradiction Hne; reflexivity |].
  assert (Hk : blank (before_key (fst m)) = true).
  { inversion Hall as [| ? ? [Hsp _] _]; subst. unfold blank_spacing in Hsp.
    rewrite !andb_true_iff in Hsp. tauto. }
  destruct (skip_ws_members_text m ms "}" Hk) as [r Hr].
  pose proof (concat_members_length (m :: ms)) as Hlen.
  cbn [String.append String.length]. rewrite string_length_append.
  cbn [String.length].
  replace (String.length (String.concat "," (map spaced_member (m :: ms))) + 1)%nat
    with (S (String.length (String.concat "," (map spaced_member (m :: ms)))))
    by lia.
  rewrite (value_object _ _ r Hr).
  rewrite members_object_text; [reflexivity | discriminate | exact Hall | lia].
Qed.

Lemma append_nil_r (s : string) : s ++ "" = s.
Proof. induction s as [| c s IH]; [reflexivity |]. cbn [String.append]. rewrite IH. reflexivity. Qed.

Lemma concat_head_append (sep a b : string) (l : list string) :
  String.concat sep ((a ++ b) :: l) = a ++ String.concat sep (b :: l).
Proof. destruct l; cbn [String.concat]; rewrite ?append_assoc; reflexivity. Qed.

Lemma concat_space_after_comma (first : string) (rest : list (string * json)) :
  String.concat "," (first :: map (fun kv => " " ++ member_text kv) rest)
  = String.concat ", " (first :: map member_text rest).
Proof.
  revert first. induction rest as [| kv rest IH]; intros first; [reflexivity |].
  cbn [map].
  change (String.concat "," (first :: (" " ++ member_text kv)
                               :: map (fun kv => " " ++ member_text kv) rest))
    with (first ++ ","
          ++ String.concat "," ((" " ++ member_text kv)
                                  :: map (fun kv => " " ++ member_text kv) rest)).
  rewrite IH, concat_head_append. reflexivity.
Qed.

(** What [json.dumps] writes for an object is the text of the object in the
    white space of [json.dumps]. *)
Lemma dumps_object_text (members : list (string * json)) :
  Json.dumps (JObject members) = object_text (dumps_layout members).
Proof.
  rewrite dumps_object. unfold object_text. do 2 f_equal.
  destruct members as [| kv rest]; [reflexivity |].
  cbn [dumps_layout map]. rewrite map_map.
  rewrite (map_ext (fun kv => spaced_member (mkSpacing " " "" " " "", kv))
             (fun kv => " " ++ member_text kv))
    by (intros kv2; unfold spaced_member, member_text; cbn [fst snd];
        cbn [before_key before_colon after_colon after_value];
        rewrite append_nil_r; reflexivity).
  replace (spaced_member (mkSpacing "" "" " " "", kv)) with (member_text kv)
    by (unfold spaced_member, member_text; cbn [fst snd];
        cbn [before_key before_colon after_colon after_value];
        rewrite append_nil_r; reflexivity).
  symmetry. apply concat_space_after_comma.
Qed.

(** ** The labeled fields of a completion *)

Lemma labeled_object_keys (content : string -> string) (order : list string) :
  map fst (labeled_object content order) = order.
Proof.
  unfold labeled_object. rewrite map_map. cbn [fst]. apply map_id.
Qed.

Lemma QNASummary_field_names_NoDup : NoDup QNASummary_field_names.
Proof. repeat constructor; simpl; intuition discriminate. Qed.

Lemma get_not_in_keys (key : string) (members : list (string * json)) :
  ~ In key (map fst members) -> Json.get key members = None.
Proof.
  intros Hnotin. destruct (Json.get key members) as [v |] eqn:E; [| reflexivity].
  exfalso. apply Hnotin. exact (get_in_keys _ _ _ E).
Qed.

(** The JSON candidate of a completion that has the text of an object with
    prose around it, when the prose has no brace on the side of the object:
    the text of the object. *)
Lemma json_str_object_text
    (pre post : string) (laid_out : list (Spacing * (string * json))) :
  PyStr.has_char "{" pre = false ->
  PyStr.has_char "}" post = false ->
  LangChain.json_str (pre ++ object_text laid_out ++ post) = object_text laid_out.
Proof.
  intros Hpre Hpost. unfold object_text.
  set (body := String.concat "," (map spaced_member laid_out)).
  unfold LangChain.json_str.
  rewrite search_braces_strip. unfold LangChain.search_braces.
  rewrite !append_assoc. cbn [String.append].
  rewrite from_first_open_skip by exact Hpre.
  change (String "{" (body ++ String "}" post))
    with (String "{" body ++ String "}" post).
  rewrite upto_last_close_keep by exact Hpost.
  reflexivity.
Qed.

(** When [json.loads] decodes the text of the object to its members,
    [parse] returns the instance of the labeled contents. *)
Lemma parse_labeled_text
    (content : string -> string) (laid_out : list (Spacing * (string * json)))
    (pre post : string) :
  Permutation (map snd laid_out) (labeled_object content QNASummary_field_names) ->
  PyStr.has_char "{" pre = false ->
  PyStr.has_char "}" post = false ->
  json_loads (object_text laid_out) = inr (map snd laid_out) ->
  parse QNASummary_parser (pre ++ object_text laid_out ++ post)
  = inr (map (fun field => (field, content field)) QNASummary_field_names).
Proof.
  intros Hperm Hpre Hpost Hloads.
  assert (Hkeys : Permutation (map fst (map snd laid_out)) QNASummary_field_names).
  { rewrite <- (labeled_object_keys content QNASummary_field_names).
    apply Permutation_map. exact Hperm. }
  apply parse_labeled_members with (members := map snd laid_out).
  - rewrite json_str_object_text by assumption. exact Hloads.
  - apply get_not_in_keys. intros Hin.
    apply (Permutation_in _ Hkeys) in Hin.
    simpl in Hin. intuition discriminate.
  - intros field Hin. apply get_of_unique_key.
    + apply (Permutation_NoDup (Permutation_sym Hkeys)).
      exact QNASummary_field_names_NoDup.
    + apply (Permutation_in _ (Permutation_sym Hperm)).
      unfold labeled_object.
      apply (in_map (fun field => (field, JString (content field)))). exact Hin.
Qed.

(** ** More on the prompt *)

Lemma prompt_for_boundary
    (job middle company candidate_name : string) (interview_qna : PyVal) :
  prompt_for (job ++ " position at " ++ middle) company candidate_name interview_qna
  = prompt_for job (middle ++ " position at " ++ company) candidate_name interview_qna.
Proof.
  unfold prompt_for, substituted_prompt.
  rewrite !append_assoc. reflexivity.
Qed.

(** X11: the prompt does not tell where the job title ends and the company
    name starts: the words between the two fields may belong to either, so
    two calls that differ in both arguments send the same request and end
    in the same way. *)
Theorem prompt_does_not_separate_fields
    (model_name : string) (max_output_tokens : Z) (temperature : float) :
  exists self,
    HRInterviewAnalyzer_init model_name max_output_tokens temperature = inr self
    /\ forall job middle company candidate_name interview_qna sent,
         analyze_interview (job ++ " position at " ++ middle) company
           candidate_name interview_qna (mkProcess self sent)
         = analyze_interview job (middle ++ " position at " ++ company)
             candidate_name interview_qna (mkProcess self sent).
Proof.
  eexists. split; [apply HRInterviewAnalyzer_init_returns |].
  intros job middle company candidate_name interview_qna sent.
  rewrite !analyze_interview_run
    with (1 := HRInterviewAnalyzer_init_returns model_name max_output_tokens temperature).
  rewrite prompt_for_boundary. reflexivity.
Qed.

End Program.

(** ** The labeled fields, decoded *)

(** C3: a well-formed completion is the text of the JSON object of the
    eight fields, each labeled with its content and written as [json.dumps]
    writes a key and a string, the members in any order and in any white
    space, with any prose before the object that has no opening brace and
    any prose after it that has no closing brace.  With any [json.loads]
    that decodes the text of the object to its members, and with the decoder
    of this development, which does, [parse] returns the instance whose
    eight fields are exactly the labeled contents, character for
    character. *)
Theorem parse_extracts_labeled_fields
    (content : string -> string) (laid_out : list (Spacing * (string * json)))
    (pre post : string) :
  Permutation (map snd laid_out) (labeled_object content QNASummary_field_names) ->
  forallb (fun m => blank_spacing (fst m)) laid_out = true ->
  PyStr.has_char "{" pre = false ->
  PyStr.has_char "}" post = false ->
  (forall json_loads : string -> PyException + list (string * json),
     json_loads (object_text laid_out) = inr (map snd laid_out) ->
     parse json_loads QNASummary_parser (pre ++ object_text laid_out ++ post)
     = inr (map (fun field => (field, content field)) QNASummary_field_names))
  /\ JsonText.loads (object_text laid_out) = inr (map snd laid_out)
  /\ parse JsonText.loads QNASummary_parser (pre ++ object_text laid_out ++ post)
     = inr (map (fun field => (field, content field)) QNASummary_field_names).
Proof.
  intros Hperm Hblank Hpre Hpost.
  assert (Hdecoded : JsonText.loads (object_text laid_out) = inr (map snd laid_out)).
  { apply loads_object_text.
    - intros ->. apply Permutation_nil in Hperm. discriminate Hperm.
    - apply Forall_forall. intros m Hin. split.
      + rewrite forallb_forall in Hblank. exact (Hblank m Hin).
      + pose proof (Permutation_in _ Hperm (in_map snd _ _ Hin)) as Hm.
        unfold labeled_object in Hm. apply in_map_iff in Hm.
        destruct Hm as [field [Hm _]].
        exists (content field). rewrite <- Hm. reflexivity. }
  split; [| split].
  - intros json_loads Hloads. apply parse_labeled_text; assumption.
  - exact Hdecoded.
  - apply parse_labeled_text; assumption.
Qed.

(** ** The scenarios, run *)

(** The single pair Q1, A1: the transcript is the text of a Python list, it
    has no numbered unit of a question line and an answer line, neither of
    the two labels of such a unit, and nothing with a 1 stands before Q1 (the
    first 1 of the text is the one of Q1 itself). *)
Lemma transcript_Q1A1_has_no_numbered_unit :
  py_str (interview_qna_list Scenario.Q1A1) = "[{'question': 'Q1', 'answer': 'A1'}]"
  /\ ~ (exists pre post,
          py_str (interview_qna_list Scenario.Q1A1)
          = pre ++ numbered_unit 1 (mkQNA "Q1" "A1") ++ post)
  /\ ~ (exists pre post,
          py_str (interview_qna_list Scenario.Q1A1) = pre ++ "Question: " ++ post)
  /\ ~ (exists pre post,
          py_str (interview_qna_list Scenario.Q1A1) = pre ++ "Answer: " ++ post)
  /\ PyStr.find "Q1" (py_str (interview_qna_list Scenario.Q1A1)) = Some 15%nat
  /\ PyStr.find "1" (py_str (interview_qna_list Scenario.Q1A1)) = Some 16%nat.
Proof.
  split; [reflexivity |].
  repeat (split; [apply not_contains_no_occurrence; reflexivity |]).
  split; reflexivity.
Qed.



(** The completion with a sentence before the object and the eight fields
    in reverse order, in the white space of [json.dumps]; and the completion
    with the object between two fences, each member on a line of its own:
    the instance has each field with its own content. *)
Lemma parse_extracts_labeled_fields_witness :
  parse JsonText.loads QNASummary_parser Scenario.labeled_text
  = inr [("name", "Jane Doe"); ("overall_impression", "Clear and concise");
         ("chance_of_getting_the_job", "High");
         ("most_relevant_position", "Backend Engineer");
         ("personal_capability", "Team player");
         ("psychological_capability", "Calm");
         ("technical_capability", "Strong"); ("final_thoughts", "Hire.")]
  /\ parse JsonText.loads QNASummary_parser Scenario.fenced_text
     = inr [("name", "Jane Doe"); ("overall_impression", "Clear and concise");
            ("chance_of_getting_the_job", "High");
            ("most_relevant_position", "Backend Engineer");
            ("personal_capability", "Team player");
            ("psychological_capability", "Calm");
            ("technical_capability", "Strong"); ("final_thoughts", "Hire.")].
Proof.
  split.
  - refine (proj2 (proj2
              (parse_extracts_labeled_fields Scenario.labeled_content
                 (dumps_layout
                    (rev (labeled_object Scenario.labeled_content QNASummary_field_names)))
                 "Here is the summary: " "" _ _ _ _))).
    + apply Permutation_sym, Permutation_rev.
    + reflexivity.
    + reflexivity.
    + reflexivity.
  - refine (proj2 (proj2
              (parse_extracts_labeled_fields Scenario.labeled_content
                 (indented_layout
                    (labeled_object Scenario.labeled_content QNASummary_field_names))
                 ("```json" ++ PyStr.nl) (PyStr.nl ++ "```") _ _ _ _))).
    + apply Permutation_refl.
    + reflexivity.
    + reflexivity.
    + reflexivity.
Defined.

(** The backend that fails: the call ends with the failure of the backend,
    as the backend raised it, after one request. *)
Lemma backend_failure_propagates_witness :
  exists self,
    HRInterviewAnalyzer_default = inr self
    /\ analyze_interview JsonText.loads Scenario.fails
         "Backend Engineer" "Acme" "Jane Doe" (interview_qna_list Scenario.jane)
         (mkProcess self [])
       = (inl Scenario.transport_failure,
          mkProcess self
            [mkCall (llm self)
               (prompt_for "Backend Engineer" "Acme" "Jane Doe"
                  (interview_qna_list Scenario.jane))])
    /\ (forall text,
          parse JsonText.loads (parser self) text = inl Scenario.transport_failure ->
          (exists error,
             Scenario.transport_failure = LangChain.OutputParserException error text)
          \/ JsonText.loads (LangChain.json_str text) = inl Scenario.transport_failure
          \/ Scenario.transport_failure = Pydantic.init_type_error).
Proof.
  eexists. split; [apply HRInterviewAnalyzer_init_returns |].
  apply (backend_failure_propagates JsonText.loads Scenario.fails
           "code-bison" 1000 0.3 _
           "Backend Engineer" "Acme" "Jane Doe" (interview_qna_list Scenario.jane)
           [] Scenario.transport_failure).
  - apply HRInterviewAnalyzer_init_returns.
  - reflexivity.
Defined.

(** A backend that fails and a backend whose answer the parser cannot take:
    the first raises a [TypeError], the second answers with an object that
    has a member named [__pydantic_self__].  The two calls of
    [analyze_interview] end in the same way, with the same exception, which
    is neither a [GenerationError] nor an [AnalysisError] and has no stage:
    nothing the caller receives tells the failure of the backend from the
    failure of the parser. *)
Lemma backend_failure_not_told_from_parse_failure :
  exists self,
    HRInterviewAnalyzer_default = inr self
    /\ fails_with Pydantic.init_type_error []
         (request_for (llm self) Scenario.jane)
       = inl Pydantic.init_type_error
    /\ Scenario.answers self_named_text [] (request_for (llm self) Scenario.jane)
       = inr self_named_text
    /\ parse JsonText.loads (parser self) self_named_text
       = inl Pydantic.init_type_error
    /\ analyze_interview JsonText.loads (fails_with Pydantic.init_type_error)
         "Backend Engineer" "Acme" "Jane Doe" (interview_qna_list Scenario.jane)
         (mkProcess self [])
       = (inl Pydantic.init_type_error,
          mkProcess self [request_for (llm self) Scenario.jane])
    /\ analyze_interview JsonText.loads (Scenario.answers self_named_text)
         "Backend Engineer" "Acme" "Jane Doe" (interview_qna_list Scenario.jane)
         (mkProcess self [])
       = (inl Pydantic.init_type_error,
          mkProcess self [request_for (llm self) Scenario.jane])
    /\ exc_class Pydantic.init_type_error = "TypeError"
    /\ get_summary JsonText.loads (fails_with Pydantic.init_type_error)
         Scenario.jane (mkProcess self [])
       = get_summary JsonText.loads (Scenario.answers self_named_text)
           Scenario.jane (mkProcess self []).
Proof.
  eexists. split; [apply HRInterviewAnalyzer_init_returns |].
  repeat (split; [reflexivity |]). reflexivity.
Qed.



(** The backend that answers without labels: the handler raises a 500 whose
    detail is the message of the parser. *)
Lemma get_summary_failure_is_500_witness :
  exists self,
    HRInterviewAnalyzer_default = inr self
    /\ get_summary JsonText.loads (Scenario.answers Scenario.unlabeled_text)
         Scenario.jane (mkProcess self [])
       = (inl (mkHTTPException 500
                 "Failed to parse QNASummary from completion Sorry, I cannot help.. Got: Expecting value: line 1 column 1 (char 0)"),
          mkProcess self [request_for (llm self) Scenario.jane]).
Proof.
  eexists. split; [apply HRInterviewAnalyzer_init_returns |].
  apply (get_summary_failure_is_500 JsonText.loads
           (Scenario.answers Scenario.unlabeled_text) Scenario.jane _ _
           (LangChain.OutputParserException
              "Failed to parse QNASummary from completion Sorry, I cannot help.. Got: Expecting value: line 1 column 1 (char 0)"
              Scenario.unlabeled_text)).
  rewrite analyze_interview_run with (1 := HRInterviewAnalyzer_init_returns "code-bison" 1000 0.3).
  reflexivity.
Defined.

(** The backend that fails: the handler raises a 500 as well, with the
    message of the backend. *)
Example get_summary_backend_failure :
  exists self,
    HRInterviewAnalyzer_default = inr self
    /\ fst (get_summary JsonText.loads Scenario.fails Scenario.jane (mkProcess self []))
       = inl (mkHTTPException 500 "503 failed to connect to all addresses").
Proof.
  eexists. split; [apply HRInterviewAnalyzer_init_returns |].
  unfold get_summary.
  rewrite analyze_interview_run with (1 := HRInterviewAnalyzer_init_returns "code-bison" 1000 0.3).
  reflexivity.
Qed.

(** The end-to-end scenario of the specification: the backend answers with
    the labeled completion and the handler returns the instance, whose name
    is the one of the completion. *)
Example get_summary_end_to_end :
  exists self,
    HRInterviewAnalyzer_default = inr self
    /\ exists result,
         fst (get_summary JsonText.loads (Scenario.answers Scenario.labeled_text)
                Scenario.jane (mkProcess self []))
         = inr result
         /\ Pydantic.getattr result "name" = Some "Jane Doe".
Proof.
  eexists. split; [apply HRInterviewAnalyzer_init_returns |].
  unfold get_summary.
  rewrite analyze_interview_run with (1 := HRInterviewAnalyzer_init_returns "code-bison" 1000 0.3).
  eexists. split; reflexivity.
Qed.

(** An empty list of pairs gives the transcript of an empty list, and the
    prompt is still rendered. *)
Example empty_transcript :
  py_str (interview_qna_list (mkInput "Jane Doe" "Backend Engineer" "Acme" [])) = "[]".
Proof. reflexivity. Qed.

(** The format instructions start with the sentence of the library, show the
    example schema with single braces, and end with the schema of
    [QNASummary] between two fences. *)
Example format_instructions_text :
  PyStr.startswith
    "The output should be formatted as a JSON instance that conforms to the JSON schema below."
    QNASummary_format_instructions = true
  /\ PyStr.contains (PyStr.tildes "the object {~foo~: [~bar~, ~baz~]} is a well-formatted instance")
       QNASummary_format_instructions = true
  /\ PyStr.contains
       (PyStr.tildes "~required~: [~name~, ~overall_impression~, ~chance_of_getting_the_job~, ~most_relevant_position~, ~personal_capability~, ~psychological_capability~, ~technical_capability~, ~final_thoughts~]}"
        ++ PyStr.nl ++ "```")
       QNASummary_format_instructions = true
  /\ String.length QNASummary_format_instructions = 3264%nat.
Proof. repeat split; vm_compute; reflexivity. Qed.

(** ** More scenarios, run *)

(** The backend answers without [final_thoughts]: the call ends with the
    exception of the parser after its one request. *)
Lemma parse_failure_leaves_analyze_interview_witness :
  exists self,
    HRInterviewAnalyzer_default = inr self
    /\ analyze_interview JsonText.loads (Scenario.answers Scenario.incomplete_text)
         "Backend Engineer" "Acme" "Jane Doe" (interview_qna_list Scenario.jane)
         (mkProcess self [])
       = (inl missing_final_thoughts,
          mkProcess self
            [mkCall (llm self)
               (prompt_for "Backend Engineer" "Acme" "Jane Doe"
                  (interview_qna_list Scenario.jane))])
    /\ ((exc_class missing_final_thoughts = "OutputParserException"
         /\ exc_llm_output missing_final_thoughts = Some Scenario.incomplete_text)
        \/ JsonText.loads (LangChain.json_str Scenario.incomplete_text)
           = inl missing_final_thoughts
        \/ missing_final_thoughts = Pydantic.init_type_error).
Proof.
  eexists. split; [apply HRInterviewAnalyzer_init_returns |].
  apply (parse_failure_leaves_analyze_interview JsonText.loads
           (Scenario.answers Scenario.incomplete_text)
           "code-bison" 1000 0.3 _
           "Backend Engineer" "Acme" "Jane Doe" (interview_qna_list Scenario.jane)
           [] Scenario.incomplete_text missing_final_thoughts).
  - apply HRInterviewAnalyzer_init_returns.
  - reflexivity.
  - reflexivity.
Defined.

(** The backend answers with the labeled completion: the handler returns the
    eight fields in declaration order. *)
Lemma get_summary_returns_labeled_fields_witness :
  exists self,
    HRInterviewAnalyzer_default = inr self
    /\ get_summary JsonText.loads (Scenario.answers Scenario.labeled_text)
         Scenario.jane (mkProcess self [])
       = (inr [("name", "Jane Doe"); ("overall_impression", "Clear and concise");
               ("chance_of_getting_the_job", "High");
               ("most_relevant_position", "Backend Engineer");
               ("personal_capability", "Team player");
               ("psychological_capability", "Calm");
               ("technical_capability", "Strong"); ("final_thoughts", "Hire.")],
          mkProcess self [request_for (llm self) Scenario.jane]).
Proof.
  eexists. split; [apply HRInterviewAnalyzer_init_returns |].
  refine (get_summary_returns_labeled_fields JsonText.loads
            (Scenario.answers Scenario.labeled_text)
            "code-bison" 1000 0.3 _ Scenario.jane [] Scenario.labeled_text
            (rev (map (fun field => (field, JString (Scenario.labeled_content field)))
                    QNASummary_field_names))
            Scenario.labeled_content _ _ _ _ _).
  - apply HRInterviewAnalyzer_init_returns.
  - reflexivity.
  - reflexivity.
  - reflexivity.
  - intros field Hin. simpl in Hin.
    repeat (destruct Hin as [<- | Hin]; [reflexivity |]). destruct Hin.
Defined.

(** The backend answers without labels: the detail of the 500 quotes the
    answer. *)
Lemma get_summary_detail_quotes_completion_witness :
  exists self,
    HRInterviewAnalyzer_default = inr self
    /\ exists got,
         get_summary JsonText.loads (Scenario.answers Scenario.unlabeled_text)
           Scenario.jane (mkProcess self [])
         = (inl (mkHTTPException 500
                   ("Failed to parse QNASummary from completion "
                    ++ Scenario.unlabeled_text ++ ". Got: " ++ got)),
            mkProcess self [request_for (llm self) Scenario.jane]).
Proof.
  eexists. split; [apply HRInterviewAnalyzer_init_returns |].
  apply (get_summary_detail_quotes_completion JsonText.loads
           (Scenario.answers Scenario.unlabeled_text)
           "code-bison" 1000 0.3 _ Scenario.jane [] Scenario.unlabeled_text).
  - apply HRInterviewAnalyzer_init_returns.
  - reflexivity.
  - left. exists (JSONDecodeError "Expecting value: line 1 column 1 (char 0)").
    split; reflexivity.
Defined.

(** Two requests to a backend that always gives the same answer: each
    response is the one of its request alone. *)
Lemma responses_do_not_depend_on_history_witness :
  exists self,
    HRInterviewAnalyzer_default = inr self
    /\ fst (serve JsonText.loads (Scenario.answers Scenario.labeled_text)
              [Scenario.jane; Scenario.Q1A1] (mkProcess self []))
       = map (fun input_data =>
                fst (get_summary JsonText.loads (Scenario.answers Scenario.labeled_text)
                       input_data (mkProcess self [])))
           [Scenario.jane; Scenario.Q1A1].
Proof.
  eexists. split; [apply HRInterviewAnalyzer_init_returns |].
  apply (responses_do_not_depend_on_history JsonText.loads
           (Scenario.answers Scenario.labeled_text) "code-bison" 1000 0.3).
  - apply HRInterviewAnalyzer_init_returns.
  - reflexivity.
Defined.

(** A number, a boolean and an empty string are taken: the instance has
    their texts. *)
Lemma parse_returns_iff_scalar_fields_witness :
  parse JsonText.loads QNASummary_parser coerced_text
  = inr [("name", "Jane Doe"); ("overall_impression", "Clear");
         ("chance_of_getting_the_job", "85");
         ("most_relevant_position", "Backend Engineer");
         ("personal_capability", "True"); ("psychological_capability", "");
         ("technical_capability", "Strong"); ("final_thoughts", "Hire.")].
Proof.
  apply (proj2 (parse_returns_iff_scalar_fields JsonText.loads coerced_text
                  [("name", JString "Jane Doe"); ("overall_impression", JString "Clear");
                   ("chance_of_getting_the_job", JNumber "85");
                   ("most_relevant_position", JString "Backend Engineer");
                   ("personal_capability", JBool true);
                   ("psychological_capability", JString "");
                   ("technical_capability", JString "Strong");
                   ("final_thoughts", JString "Hire.")]
                  _ eq_refl eq_refl)).
  repeat (constructor;
          [split; [reflexivity | eexists; split; reflexivity] |]).
  constructor.
Defined.

(** A sentence before the object and a sentence after it: the candidate is
    the object. *)
Lemma json_str_ignores_surrounding_text_witness :
  LangChain.json_str
    ("Here is the summary: " ++ "{" ++ PyStr.tildes "~name~: ~Jane Doe~" ++ "}"
     ++ " I hope this helps.")
  = "{" ++ PyStr.tildes "~name~: ~Jane Doe~" ++ "}".
Proof.
  apply json_str_ignores_surrounding_text; reflexivity.
Defined.
